(** * Kerliix OAuth backend (main.py): login / callback / me / revoke / tokens

    A shallow embedding of the FastAPI handlers of [main.py].  The two
    module-level dictionaries [SESSION_STORE] and [PKCE_STORE] are finite
    maps threaded through a state-and-exception monad; the SDK object
    [kerliix_client] is a record of oracles, one per awaited method, and
    every awaited call is appended to a trace so that "the provider was
    (not) contacted" is a statement about the final world.  A handler runs
    from its first line to its reply as one step; the values drawn from
    [secrets.token_urlsafe] are arguments of the handler that draws them. *)

From Stdlib Require Import ZArith Ascii.
From stdpp Require Import base strings gmap fin_maps list.

#[local] Set Warnings "-register-all".

Local Open Scope Z_scope.
Local Open Scope string_scope.

(** ** Python values that cross the handlers *)

(** JSON-serialisable values used in [detail=...] and [content=...]. *)
Inductive json :=
| JNone
| JStr (s : string)
| JBool (b : bool)
| JDict (items : list (string * json)).

(** [token_response] is whatever the SDK returned from
    [exchangeCodeForToken]: "a TokenResponse dataclass-like dict/object".
    An object exposes attributes and has no [.get]; a dict has [.get] and
    no [access_token] attribute. *)
Inductive token_obj :=
| TokenObject (attrs : gmap string string)
| TokenDict (items : gmap string string).

(** Exceptions raised by the SDK or by the Python runtime; [str(e)] is
    [message].  [OAuthError] is the SDK's structured error with [e.code]. *)
Inductive exception :=
| OAuthError (code message : string)
| Exception (message : string).

Definition str (e : exception) : string :=
  match e with
  | OAuthError _ message => message
  | Exception message => message
  end.

(** What leaves a handler instead of a response: an [HTTPException] raised
    by the handler, or an exception nobody caught. *)
Inductive raised :=
| HTTPException (status_code : Z) (detail : json)
| Uncaught (e : exception).

Inductive result (E A : Type) :=
| Ok (a : A)
| Raise (e : E).
Arguments Ok {E A} a.
Arguments Raise {E A} e.

(** ** Truthiness ([if x], [not x], [x or y]) *)

Definition str_truthy (s : string) : bool :=
  match s with
  | EmptyString => false
  | String _ _ => true
  end.

(** [Optional[str]]: [None] and [""] are falsy. *)
Definition truthy (x : option string) : bool :=
  match x with
  | Some s => str_truthy s
  | None => false
  end.

(** The string held by a truthy [Optional[str]]. *)
Definition as_truthy (x : option string) : option string :=
  match x with
  | Some s => if str_truthy s then Some s else None
  | None => None
  end.

Definition py_or (x y : option string) : option string :=
  if truthy x then x else y.

(** [Optional[dict]]: [None] and [{}] are falsy. *)
Definition dict_truthy {V} (d : option (gmap string V)) : bool :=
  match d with
  | Some m => negb (bool_decide (size m = 0%nat))
  | None => false
  end.

(** [key in d] for a dict known not to be [None]. *)
Definition contains {V} (key : string) (d : option (gmap string V)) : bool :=
  match d with
  | Some m => bool_decide (is_Some (m !! key))
  | None => false
  end.

Definition opt_json (x : option string) : json :=
  match x with
  | Some s => JStr s
  | None => JNone
  end.

(** [s.split(sep)] for a one-character separator. *)
Fixpoint split (sep : Ascii.ascii) (s : string) : list string :=
  match s with
  | EmptyString => [EmptyString]
  | String c rest =>
      if bool_decide (c = sep) then EmptyString :: split sep rest
      else match split sep rest with
           | h :: t => String c h :: t
           | [] => [String c EmptyString]
           end
  end.

(** ** Requests and responses *)

Record Request := {
  cookies : gmap string string;
  (** [dict(request.query_params)] *)
  query_params : gmap string string
}.

Inductive cookie_header :=
| SetCookie (key value : string) (httponly secure : bool) (samesite : string)
| DeleteCookie (key : string).

Inductive Response :=
| RedirectResponse (url : string) (headers : list cookie_header)
| JSONResponse (content : json) (headers : list cookie_header).

Definition headers (r : Response) : list cookie_header :=
  match r with
  | RedirectResponse _ h => h
  | JSONResponse _ h => h
  end.

Definition add_header (r : Response) (h : cookie_header) : Response :=
  match r with
  | RedirectResponse url hs => RedirectResponse url (hs ++ [h])
  | JSONResponse content hs => JSONResponse content (hs ++ [h])
  end.

Definition set_cookie (r : Response) (key value : string)
    (httponly secure : bool) (samesite : string) : Response :=
  add_header r (SetCookie key value httponly secure samesite).

Definition delete_cookie (r : Response) (key : string) : Response :=
  add_header r (DeleteCookie key).

(** ** The SDK client and the world *)

Inductive idp_call :=
| GetAuthUrl (scopes : option (list string)) (state : string) (usePKCE : bool)
| ExchangeCodeForToken (code code_verifier : string)
| GetUserInfo (access_token : option string)
| RevokeToken (access_token : option string).

(** [kerliix_client]: what each awaited method does when called. *)
Record KerliixOAuth := {
  get_auth_url :
    option (list string) -> string -> bool -> result exception (gmap string string);
  exchangeCodeForToken : string -> string -> result exception token_obj;
  getUserInfo : option string -> result exception json;
  revokeToken : option string -> result exception unit
}.

Record World := {
  (** session_id -> {"token": token_response} *)
  SESSION_STORE : gmap string (gmap string token_obj);
  (** state -> code_verifier *)
  PKCE_STORE : gmap string string;
  (** calls made on [kerliix_client] so far, oldest first *)
  IDP_CALLS : list idp_call
}.

(** ** State-and-exception monad *)

Definition M (E A : Type) : Type := World -> result E A * World.

Definition ret {E A} (a : A) : M E A := fun w => (Ok a, w).

Definition bind {E A B} (m : M E A) (k : A -> M E B) : M E B :=
  fun w =>
    match m w with
    | (Ok a, w') => k a w'
    | (Raise e, w') => (Raise e, w')
    end.

Notation "x <- m ;; k" := (bind m (fun x => k))
  (at level 100, m at next level, right associativity).

Definition raise {E A} (e : E) : M E A := fun w => (Raise e, w).

(** A Python-level exception outside any [try] leaves the handler. *)
Definition propagate {A} (m : M exception A) : M raised A :=
  fun w =>
    match m w with
    | (Ok a, w') => (Ok a, w')
    | (Raise e, w') => (Raise (Uncaught e), w')
    end.

(** [try: body  except OAuthError as e: h1  except Exception as e: h2] *)
Definition try_except {A} (body : M exception A)
    (except_OAuthError : string -> string -> M raised A)
    (except_Exception : exception -> M raised A) : M raised A :=
  fun w =>
    match body w with
    | (Ok a, w') => (Ok a, w')
    | (Raise (OAuthError code message), w') => except_OAuthError code message w'
    | (Raise e, w') => except_Exception e w'
    end.

(** An expression that only computes a value or raises. *)
Definition eval {E A} (r : result E A) : M E A := fun w => (r, w).

(** [await kerliix_client.method(...)]: record the call, deliver its outcome. *)
Definition await {A} (call : idp_call) (outcome : result exception A) : M exception A :=
  fun w =>
    (outcome,
     {| SESSION_STORE := SESSION_STORE w;
        PKCE_STORE := PKCE_STORE w;
        IDP_CALLS := IDP_CALLS w ++ [call] |}).

(** [PKCE_STORE[state] = code_verifier] *)
Definition PKCE_STORE_setitem {E} (state code_verifier : string) : M E unit :=
  fun w =>
    (Ok tt,
     {| SESSION_STORE := SESSION_STORE w;
        PKCE_STORE := <[state := code_verifier]> (PKCE_STORE w);
        IDP_CALLS := IDP_CALLS w |}).

(** [PKCE_STORE.pop(state, None)] *)
Definition PKCE_STORE_pop {E} (state : string) : M E (option string) :=
  fun w =>
    (Ok (PKCE_STORE w !! state),
     {| SESSION_STORE := SESSION_STORE w;
        PKCE_STORE := delete state (PKCE_STORE w);
        IDP_CALLS := IDP_CALLS w |}).

(** [SESSION_STORE[session_id] = record] *)
Definition SESSION_STORE_setitem {E} (session_id : string)
    (record : gmap string token_obj) : M E unit :=
  fun w =>
    (Ok tt,
     {| SESSION_STORE := <[session_id := record]> (SESSION_STORE w);
        PKCE_STORE := PKCE_STORE w;
        IDP_CALLS := IDP_CALLS w |}).

(** [SESSION_STORE.get(session_id)] *)
Definition SESSION_STORE_get {E} (session_id : string)
    : M E (option (gmap string token_obj)) :=
  fun w => (Ok (SESSION_STORE w !! session_id), w).

(** [SESSION_STORE.pop(session_id, None)] *)
Definition SESSION_STORE_pop {E} (session_id : string)
    : M E (option (gmap string token_obj)) :=
  fun w =>
    (Ok (SESSION_STORE w !! session_id),
     {| SESSION_STORE := delete session_id (SESSION_STORE w);
        PKCE_STORE := PKCE_STORE w;
        IDP_CALLS := IDP_CALLS w |}).

(** ** Helpers of main.py *)

Definition _get_session_id (request : Request) : option string :=
  cookies request !! "session_id".

Definition _set_session_cookie (response : Response) (session_id : string) : Response :=
  set_cookie response "session_id" session_id true false "lax".

(** [d[key]] on an [Optional[dict]]: [KeyError] on a missing key,
    [TypeError] on [None]. *)
Definition getitem {V} (d : option (gmap string V)) (key : string) : M exception V :=
  match d with
  | Some m =>
      match m !! key with
      | Some v => ret v
      | None => raise (Exception ("'" ++ key ++ "'"))
      end
  | None => raise (Exception "'NoneType' object is not subscriptable")
  end.

(** [getattr(token_obj, name, None)] *)
Definition getattr (token : token_obj) (name : string) : option string :=
  match token with
  | TokenObject attrs => attrs !! name
  | TokenDict _ => None
  end.

(** [token_obj.get(key)]: only a dict has the method; on an object the
    lookup of [.get] is an [AttributeError]. *)
Definition token_get (token : token_obj) (key : string) : result exception (option string) :=
  match token with
  | TokenDict items => Ok (items !! key)
  | TokenObject _ => Raise (Exception "object has no attribute 'get'")
  end.

(** [getattr(token_obj, "access_token", None) or token_obj.get("access_token")] *)
Definition access_token_of (token : token_obj) : result exception (option string) :=
  let attr := getattr token "access_token" in
  if truthy attr then Ok attr else token_get token "access_token".

(** [token_obj.__dict__ if hasattr(token_obj, "__dict__") else dict(token_obj)];
    neither shape of [token_obj] makes this raise, so the [except] arm of
    lines 230-231 is never taken. *)
Definition token_dict_of (token : token_obj) : gmap string string :=
  match token with
  | TokenObject attrs => attrs
  | TokenDict items => items
  end.

Definition json_of_dict (d : gmap string string) : json :=
  JDict ((fun kv => (kv.1, JStr kv.2)) <$> map_to_list d).

(** ** The handlers *)

(** [scopes.split(" ") if scopes else None] *)
Definition requested_scopes_of (scopes : option string) : option (list string) :=
  match as_truthy scopes with
  | Some s => Some (split " "%char s)
  | None => None
  end.

(** [GET /login].  [state] is the value drawn by [secrets.token_urlsafe(16)];
    the [response] parameter of the Python function is never used. *)
Definition login (kerliix_client : KerliixOAuth) (state : string)
    (scopes : option string) : M raised Response :=
  let requested_scopes := requested_scopes_of scopes in
  auth <- propagate (await (GetAuthUrl requested_scopes state true)
                       (get_auth_url kerliix_client requested_scopes state true)) ;;
  let code_verifier := py_or (auth !! "codeVerifier") (auth !! "code_verifier") in
  match as_truthy code_verifier with
  | None => raise (HTTPException 500 (JStr "PKCE code verifier not generated"))
  | Some code_verifier =>
      _ <- PKCE_STORE_setitem state code_verifier ;;
      redirect_url <- propagate (getitem (Some auth) "url") ;;
      ret (RedirectResponse redirect_url [])
  end.

(** [GET /callback].  [session_id] is the value drawn by
    [secrets.token_urlsafe(24)] should the handler get that far. *)
Definition callback (kerliix_client : KerliixOAuth) (session_id : string)
    (request : Request) : M raised Response :=
  let params := query_params request in
  let error := params !! "error" in
  match as_truthy error with
  | Some error =>
      raise (HTTPException 400
               (JDict [("error", JStr error);
                       ("error_description", opt_json (params !! "error_description"))]))
  | None =>
      let code := params !! "code" in
      let state := params !! "state" in
      match as_truthy code, as_truthy state with
      | Some code, Some state =>
          code_verifier <- PKCE_STORE_pop state ;;
          match as_truthy code_verifier with
          | None =>
              raise (HTTPException 400
                       (JStr "Unknown or expired state (PKCE code verifier missing)"))
          | Some code_verifier =>
              token_response <-
                try_except
                  (await (ExchangeCodeForToken code code_verifier)
                     (exchangeCodeForToken kerliix_client code code_verifier))
                  (fun code message =>
                     raise (HTTPException 400
                              (JDict [("oauth_error", JStr code);
                                      ("message", JStr message)])))
                  (fun e =>
                     raise (HTTPException 500
                              (JStr ("Token exchange failed: " ++ str e)))) ;;
              _ <- SESSION_STORE_setitem session_id {[ "token" := token_response ]} ;;
              let redirect_back := "http://localhost:5176/?logged_in=1" in
              let response := RedirectResponse redirect_back [] in
              ret (_set_session_cookie response session_id)
          end
      | _, _ =>
          raise (HTTPException 400 (JStr "Missing code or state in callback"))
      end
  end.

(** [GET /me] *)
Definition me (kerliix_client : KerliixOAuth) (request : Request) : M raised Response :=
  match as_truthy (_get_session_id request) with
  | None => raise (HTTPException 401 (JStr "No session"))
  | Some session_id =>
      stored <- SESSION_STORE_get session_id ;;
      if negb (dict_truthy stored) || negb (contains "token" stored) then
        raise (HTTPException 401 (JStr "No tokens found for session"))
      else
        user_info <-
          try_except
            (token <- getitem stored "token" ;;
             access_token <- eval (access_token_of token) ;;
             await (GetUserInfo access_token)
               (getUserInfo kerliix_client access_token))
            (fun code message =>
               raise (HTTPException 401
                        (JDict [("oauth_error", JStr code);
                                ("message", JStr message)])))
            (fun e =>
               raise (HTTPException 500
                        (JStr ("Failed to fetch user info: " ++ str e)))) ;;
        ret (JSONResponse user_info [])
  end.

(** [POST /revoke] *)
Definition revoke (kerliix_client : KerliixOAuth) (request : Request) : M raised Response :=
  match as_truthy (_get_session_id request) with
  | None => raise (HTTPException 401 (JStr "No session"))
  | Some session_id =>
      stored <- SESSION_STORE_get session_id ;;
      if negb (dict_truthy stored) || negb (contains "token" stored) then
        raise (HTTPException 400 (JStr "No token to revoke"))
      else
        token <- propagate (getitem stored "token") ;;
        access_token <- propagate (eval (access_token_of token)) ;;
        returned <-
          try_except
            (_ <- await (RevokeToken access_token)
                    (revokeToken kerliix_client access_token) ;;
             ret None)
            (fun code message =>
               _ <- SESSION_STORE_pop session_id ;;
               let response :=
                 JSONResponse (JDict [("revoked", JBool false);
                                      ("error", JStr code);
                                      ("message", JStr message)]) [] in
               ret (Some (delete_cookie response "session_id")))
            (fun e =>
               _ <- SESSION_STORE_pop session_id ;;
               let response :=
                 JSONResponse (JDict [("revoked", JBool false);
                                      ("message", JStr (str e))]) [] in
               ret (Some (delete_cookie response "session_id"))) ;;
        match returned with
        | Some response => ret response
        | None =>
            _ <- SESSION_STORE_pop session_id ;;
            let response := JSONResponse (JDict [("revoked", JBool true)]) [] in
            ret (delete_cookie response "session_id")
        end
  end.

(** [GET /tokens] *)
Definition tokens (request : Request) : M raised Response :=
  match as_truthy (_get_session_id request) with
  | None => raise (HTTPException 401 (JStr "No session"))
  | Some session_id =>
      stored <- SESSION_STORE_get session_id ;;
      if negb (dict_truthy stored) then
        raise (HTTPException 404 (JStr "No token for session"))
      else
        token <- propagate (getitem stored "token") ;;
        let token_dict := token_dict_of token in
        ret (JSONResponse (json_of_dict token_dict) [])
  end.

(** ** What the client sees *)

(** Status line: [RedirectResponse] defaults to 307, [JSONResponse] to 200,
    an [HTTPException] carries its own code, anything uncaught is a 500. *)
Definition status (r : result raised Response) : Z :=
  match r with
  | Ok (RedirectResponse _ _) => 307
  | Ok (JSONResponse _ _) => 200
  | Raise (HTTPException status_code _) => status_code
  | Raise (Uncaught _) => 500
  end.

(** Does the reply carry [delete_cookie("session_id")]? *)
Definition clears_session_cookie (r : result raised Response) : bool :=
  match r with
  | Ok response =>
      existsb (fun h => match h with
                        | DeleteCookie key => bool_decide (key = "session_id")
                        | SetCookie _ _ _ _ _ => false
                        end) (headers response)
  | Raise _ => false
  end.

(** The [revoked] flag of a JSON reply, when it has one. *)
Definition revoked_flag (r : result raised Response) : option bool :=
  match r with
  | Ok (JSONResponse (JDict (("revoked", JBool b) :: _)) _) => Some b
  | _ => None
  end.

(** The [detail] of an [HTTPException] reply (FastAPI sends
    [{"detail": detail}]). *)
Definition detail_of (r : result raised Response) : option json :=
  match r with
  | Raise (HTTPException _ detail) => Some detail
  | _ => None
  end.

(** [j[key]] on a JSON object. *)
Definition json_get (key : string) (j : json) : option json :=
  match j with
  | JDict items => snd <$> List.find (fun kv => bool_decide (kv.1 = key)) items
  | _ => None
  end.

(** ** Concrete inputs used by the examples below *)

Definition request_of (cookie_items query_items : list (string * string)) : Request :=
  {| cookies := list_to_map cookie_items; query_params := list_to_map query_items |}.

(** A provider that hands out a verifier but rejects every later call:
    the exchange and userinfo with a structured error, the revoke with a
    transport failure. *)
Definition failing_client : KerliixOAuth :=
  {| get_auth_url := fun _ state _ =>
       Ok {[ "url" := "https://api.kerliix.com/oauth/authorize?state=" ++ state;
             "codeVerifier" := "new" ]};
     exchangeCodeForToken := fun _ _ => Raise (OAuthError "invalid_grant" "code expired");
     getUserInfo := fun _ => Raise (OAuthError "invalid_token" "token expired");
     revokeToken := fun _ => Raise (Exception "connection reset") |}.

(** A provider that accepts everything and returns a dataclass token. *)
Definition accepting_client : KerliixOAuth :=
  {| get_auth_url := fun _ state _ =>
       Ok {[ "url" := "https://api.kerliix.com/oauth/authorize?state=" ++ state;
             "codeVerifier" := "new" ]};
     exchangeCodeForToken := fun _ _ =>
       Ok (TokenObject {[ "access_token" := "at"; "token_type" := "Bearer" ]});
     getUserInfo := fun _ => Ok (JDict [("sub", JStr "u1")]);
     revokeToken := fun _ => Ok tt |}.


(** A provider whose authorize-url result lacks the verifier. *)
Definition client_without_verifier : KerliixOAuth :=
  {| get_auth_url := fun _ _ _ => Ok {[ "url" := "https://api.kerliix.com/oauth/authorize" ]};
     exchangeCodeForToken := fun _ _ => Raise (Exception "unreachable");
     getUserInfo := fun _ => Raise (Exception "unreachable");
     revokeToken := fun _ => Ok tt |}.

(** One session with a dict token, one session record without token
    material, and one pending login. *)
Definition example_world : World :=
  {| SESSION_STORE :=
       {[ "sid" := {[ "token" := TokenDict {[ "access_token" := "at" ]} ]};
          "bare" := ∅ ]};
     PKCE_STORE := {[ "s" := "old" ]};
     IDP_CALLS := [] |}.

(** ** The application as a whole *)

(** [GET /]: the returned dict is sent as a JSON body. *)
Definition root : M raised Response :=
  ret (JSONResponse
         (JDict [("message", JStr "Kerliix OAuth backend running on localhost:5175")]) []).

(** Lines 47 and 50: both stores start empty. *)
Definition initial_world : World :=
  {| SESSION_STORE := ∅; PKCE_STORE := ∅; IDP_CALLS := [] |}.

(** One request to one of the six routes, together with what the
    environment contributes while it is served: the provider's behaviour
    and the random value the handler draws. *)
Inductive invocation :=
| Root
| Login (kerliix_client : KerliixOAuth) (state : string) (scopes : option string)
| Callback (kerliix_client : KerliixOAuth) (session_id : string) (request : Request)
| Me (kerliix_client : KerliixOAuth) (request : Request)
| Revoke (kerliix_client : KerliixOAuth) (request : Request)
| Tokens (request : Request).

Definition handle (i : invocation) : M raised Response :=
  match i with
  | Root => root
  | Login kerliix_client state scopes => login kerliix_client state scopes
  | Callback kerliix_client session_id request => callback kerliix_client session_id request
  | Me kerliix_client request => me kerliix_client request
  | Revoke kerliix_client request => revoke kerliix_client request
  | Tokens request => tokens request
  end.

(** The world after serving the requests of [history] in order. *)
Definition serve (history : list invocation) (w : World) : World :=
  foldl (fun w i => (handle i w).2) w history.

(** Every session record has a ["token"] entry. *)
Definition sessions_hold_tokens (w : World) : Prop :=
  forall session_id stored,
    SESSION_STORE w !! session_id = Some stored -> is_Some (stored !! "token").

(** Every pending login has a non-empty verifier. *)
Definition verifiers_nonempty (w : World) : Prop :=
  forall state code_verifier,
    PKCE_STORE w !! state = Some code_verifier -> code_verifier ≠ "".

(** ** Basic facts about truthiness and the store primitives *)

Section Truthiness.

Lemma str_truthy_ne (s : string) : s ≠ "" -> str_truthy s = true.
Proof. destruct s; [congruence | reflexivity]. Qed.

Lemma as_truthy_ne (s : string) : s ≠ "" -> as_truthy (Some s) = Some s.
Proof. intros Hs. cbn. by rewrite str_truthy_ne. Qed.

Lemma as_truthy_Some (x : option string) (s : string) :
  as_truthy x = Some s -> x = Some s /\ s ≠ "".
Proof.
  destruct x as [t|]; cbn; [|discriminate].
  destruct t; cbn; [discriminate|]. intros [= <-]. split; [reflexivity | discriminate].
Qed.

Lemma as_truthy_falsy (x : option string) : truthy x = false -> as_truthy x = None.
Proof. destruct x as [s|]; cbn; [|reflexivity]. by intros ->. Qed.

Lemma py_or_falsy (x y : option string) :
  truthy x = false -> truthy y = false -> as_truthy (py_or x y) = None.
Proof. intros Hx Hy. unfold py_or. rewrite Hx. by apply as_truthy_falsy. Qed.

Lemma dict_with_key_truthy {V} (m : gmap string V) (key : string) (v : V) :
  m !! key = Some v ->
  dict_truthy (Some m) = true /\ contains key (Some m) = true.
Proof.
  intros Hm. cbn. split.
  - rewrite bool_decide_eq_false_2; [reflexivity|].
    intros Hsz. apply map_size_empty_iff in Hsz. subst m.
    by rewrite lookup_empty in Hm.
  - apply bool_decide_eq_true_2. by exists v.
Qed.

Lemma dict_without_key {V} (m : gmap string V) (key : string) :
  m !! key = None -> contains key (Some m) = false.
Proof.
  intros Hm. cbn. apply bool_decide_eq_false_2. rewrite Hm. by intros [? ?].
Qed.

End Truthiness.

Section Stores.
Context {E : Type}.

Lemma PKCE_STORE_pop_result (state : string) (w : World) :
  (PKCE_STORE_pop (E:=E) state w).1 = Ok (PKCE_STORE w !! state).
Proof. reflexivity. Qed.

Lemma PKCE_STORE_pop_removes (state : string) (w : World) :
  PKCE_STORE (PKCE_STORE_pop (E:=E) state w).2 !! state = None.
Proof. cbn. apply lookup_delete_eq. Qed.

Lemma PKCE_STORE_pop_frame (state : string) (w : World) :
  SESSION_STORE (PKCE_STORE_pop (E:=E) state w).2 = SESSION_STORE w /\
  IDP_CALLS (PKCE_STORE_pop (E:=E) state w).2 = IDP_CALLS w.
Proof. by split. Qed.

End Stores.

(** ** The callback's validation steps (lines 110-123) *)

Section Callback.
Variable kerliix_client : KerliixOAuth.
Variable session_id : string.
Variable request : Request.

(** Lines 111-114: a truthy [error] parameter ends the request. *)
Lemma callback_error (error : string) (w : World) :
  query_params request !! "error" = Some error ->
  error ≠ "" ->
  callback kerliix_client session_id request w =
    (Raise (HTTPException 400
              (JDict [("error", JStr error);
                      ("error_description",
                        opt_json (query_params request !! "error_description"))])),
     w).
Proof.
  intros Herr Hne. unfold callback. rewrite Herr, (as_truthy_ne _ Hne).
  reflexivity.
Qed.

(** Lines 116-119. *)
Lemma callback_missing (w : World) :
  as_truthy (query_params request !! "error") = None ->
  as_truthy (query_params request !! "code") = None \/
  as_truthy (query_params request !! "state") = None ->
  callback kerliix_client session_id request w =
    (Raise (HTTPException 400 (JStr "Missing code or state in callback")), w).
Proof.
  intros Herr Hmiss. unfold callback. rewrite Herr.
  destruct Hmiss as [-> | ->]; [reflexivity|].
  by destruct (as_truthy (query_params request !! "code")).
Qed.

(** Lines 121-123: the state is popped, and a falsy verifier is a 400. *)
Lemma callback_unknown_state (code state : string) (w : World) :
  as_truthy (query_params request !! "error") = None ->
  as_truthy (query_params request !! "code") = Some code ->
  as_truthy (query_params request !! "state") = Some state ->
  as_truthy (PKCE_STORE w !! state) = None ->
  callback kerliix_client session_id request w =
    (Raise (HTTPException 400
              (JStr "Unknown or expired state (PKCE code verifier missing)")),
     {| SESSION_STORE := SESSION_STORE w;
        PKCE_STORE := delete state (PKCE_STORE w);
        IDP_CALLS := IDP_CALLS w |}).
Proof.
  intros Herr Hcode Hstate Hcv. unfold callback.
  rewrite Herr, Hcode, Hstate. unfold bind at 1.
  cbn [PKCE_STORE_pop]. rewrite Hcv. reflexivity.
Qed.

(** Whatever else the request carries, a state that is not a key of
    [PKCE_STORE] never gets past line 123. *)
Lemma callback_absent_state (state : string) (w : World) :
  query_params request !! "state" = Some state ->
  PKCE_STORE w !! state = None ->
  exists detail w',
    callback kerliix_client session_id request w =
      (Raise (HTTPException 400 detail), w') /\
    SESSION_STORE w' = SESSION_STORE w /\
    IDP_CALLS w' = IDP_CALLS w.
Proof.
  intros Hstate Habs.
  destruct (as_truthy (query_params request !! "error")) as [error|] eqn:Herr.
  { apply as_truthy_Some in Herr as [Herr Hne].
    eexists _, _. split; [by apply callback_error|done]. }
  destruct (as_truthy (query_params request !! "code")) as [code|] eqn:Hcode;
    [|eexists _, _; split; [apply callback_missing; by auto|done]].
  destruct (as_truthy (query_params request !! "state")) as [state'|] eqn:Hst;
    [|eexists _, _; split; [apply callback_missing; by auto|done]].
  assert (state' = state) as ->.
  { apply as_truthy_Some in Hst as [Hst _]. congruence. }
  eexists _, _. split.
  - apply (callback_unknown_state code state); try done. by rewrite Habs.
  - done.
Qed.

End Callback.

Section CallbackExchange.
Variable kerliix_client : KerliixOAuth.
Variable session_id : string.
Variable request : Request.

(** Lines 125-131: the exchange is awaited after the pop of line 121,
    and both [except] arms re-raise without touching the stores. *)
Lemma callback_exchange_failed (code state code_verifier : string)
    (e : exception) (w : World) :
  as_truthy (query_params request !! "error") = None ->
  as_truthy (query_params request !! "code") = Some code ->
  as_truthy (query_params request !! "state") = Some state ->
  as_truthy (PKCE_STORE w !! state) = Some code_verifier ->
  exchangeCodeForToken kerliix_client code code_verifier = Raise e ->
  callback kerliix_client session_id request w =
    (Raise (match e with
            | OAuthError c message =>
                HTTPException 400 (JDict [("oauth_error", JStr c);
                                          ("message", JStr message)])
            | Exception _ =>
                HTTPException 500 (JStr ("Token exchange failed: " ++ str e))
            end),
     {| SESSION_STORE := SESSION_STORE w;
        PKCE_STORE := delete state (PKCE_STORE w);
        IDP_CALLS := IDP_CALLS w ++ [ExchangeCodeForToken code code_verifier] |}).
Proof.
  intros Herr Hcode Hstate Hcv Hex. unfold callback.
  rewrite Herr, Hcode, Hstate. unfold bind at 1.
  cbn [PKCE_STORE_pop]. rewrite Hcv.
  unfold bind, try_except, await. rewrite Hex.
  by destruct e.
Qed.

(** Lines 133-144: a successful exchange stores one record and sets the
    cookie. *)
Lemma callback_exchange_ok (code state code_verifier : string)
    (token_response : token_obj) (w : World) :
  as_truthy (query_params request !! "error") = None ->
  as_truthy (query_params request !! "code") = Some code ->
  as_truthy (query_params request !! "state") = Some state ->
  as_truthy (PKCE_STORE w !! state) = Some code_verifier ->
  exchangeCodeForToken kerliix_client code code_verifier = Ok token_response ->
  callback kerliix_client session_id request w =
    (Ok (RedirectResponse "http://localhost:5176/?logged_in=1"
           [SetCookie "session_id" session_id true false "lax"]),
     {| SESSION_STORE :=
          <[session_id := {[ "token" := token_response ]}]> (SESSION_STORE w);
        PKCE_STORE := delete state (PKCE_STORE w);
        IDP_CALLS := IDP_CALLS w ++ [ExchangeCodeForToken code code_verifier] |}).
Proof.
  intros Herr Hcode Hstate Hcv Hex. unfold callback.
  rewrite Herr, Hcode, Hstate. unfold bind at 1.
  cbn [PKCE_STORE_pop]. rewrite Hcv.
  unfold bind, try_except, await. rewrite Hex. reflexivity.
Qed.

End CallbackExchange.

(** Splits a goal about [callback kc sid req w] along the five ways the
    handler can end, rewriting the call with the matching equation. *)
Ltac callback_cases kc sid req w :=
  destruct (as_truthy (query_params req !! "error")) as [error|] eqn:Herr;
  [ apply as_truthy_Some in Herr as [Herr Hne];
    rewrite (callback_error kc sid req error w Herr Hne)
  | destruct (as_truthy (query_params req !! "code")) as [code|] eqn:Hcode;
    [ destruct (as_truthy (query_params req !! "state")) as [state|] eqn:Hstate;
      [ destruct (as_truthy (PKCE_STORE w !! state)) as [cv|] eqn:Hcv;
        [ destruct (exchangeCodeForToken kc code cv) as [t|e] eqn:Hex;
          [ rewrite (callback_exchange_ok kc sid req code state cv t w
                       Herr Hcode Hstate Hcv Hex)
          | rewrite (callback_exchange_failed kc sid req code state cv e w
                       Herr Hcode Hstate Hcv Hex) ]
        | rewrite (callback_unknown_state kc sid req code state w
                     Herr Hcode Hstate Hcv) ]
      | rewrite (callback_missing kc sid req w Herr (or_intror Hstate)) ]
    | rewrite (callback_missing kc sid req w Herr (or_introl Hcode)) ] ].

Section CallbackTwice.
Variable kerliix_client : KerliixOAuth.
Variable session_id : string.
Variable request : Request.

(** Line 121 reached: whatever the lookup finds and whatever the exchange
    then does, the presented state is no longer a key of [PKCE_STORE]. *)
Lemma callback_lookup_consumes (code state : string) (w : World) :
  as_truthy (query_params request !! "error") = None ->
  as_truthy (query_params request !! "code") = Some code ->
  as_truthy (query_params request !! "state") = Some state ->
  PKCE_STORE (callback kerliix_client session_id request w).2 = delete state (PKCE_STORE w).
Proof.
  intros Herr Hcode Hstate.
  destruct (as_truthy (PKCE_STORE w !! state)) as [cv|] eqn:Hcv.
  - destruct (exchangeCodeForToken kerliix_client code cv) as [t|e] eqn:Hex.
    + by rewrite (callback_exchange_ok kerliix_client session_id request
                    code state cv t w Herr Hcode Hstate Hcv Hex).
    + by rewrite (callback_exchange_failed kerliix_client session_id request
                    code state cv e w Herr Hcode Hstate Hcv Hex).
  - by rewrite (callback_unknown_state kerliix_client session_id request
                  code state w Herr Hcode Hstate Hcv).
Qed.

(** Either the handler stopped at line 114 or 119 and touched nothing, or
    it went through line 121 and the presented state is gone. *)
Lemma callback_stops_or_consumes (state : string) (w : World) :
  query_params request !! "state" = Some state ->
  ((exists detail,
      (callback kerliix_client session_id request w).1 =
        Raise (HTTPException 400 detail)) /\
   (callback kerliix_client session_id request w).2 = w) \/
  PKCE_STORE (callback kerliix_client session_id request w).2 !! state = None.
Proof.
  intros Hparam.
  destruct (as_truthy (query_params request !! "error")) as [error|] eqn:Herr.
  { apply as_truthy_Some in Herr as [Herr Hne]. left.
    rewrite (callback_error kerliix_client session_id request error w Herr Hne).
    split; [by eexists | done]. }
  destruct (as_truthy (query_params request !! "code")) as [code|] eqn:Hcode;
    [|left; rewrite (callback_missing kerliix_client session_id request w Herr
                       (or_introl Hcode)); split; [by eexists | done]].
  destruct (as_truthy (query_params request !! "state")) as [state'|] eqn:Hstate;
    [|left; rewrite (callback_missing kerliix_client session_id request w Herr
                       (or_intror Hstate)); split; [by eexists | done]].
  right.
  rewrite (callback_lookup_consumes code state' w Herr Hcode Hstate).
  apply as_truthy_Some in Hstate as [Hstate _].
  replace state' with state by congruence. apply lookup_delete_eq.
Qed.

(** The same callback presented a second time, to any provider: a 400,
    no new session, no provider call. *)
Lemma callback_replay_refused (replay_client : KerliixOAuth) (replay_session_id : string)
    (w : World) :
  let first := callback kerliix_client session_id request w in
  let second := callback replay_client replay_session_id request first.2 in
  (exists detail, second.1 = Raise (HTTPException 400 detail)) /\
  SESSION_STORE second.2 = SESSION_STORE first.2 /\
  IDP_CALLS second.2 = IDP_CALLS first.2.
Proof.
  intros first second. subst second first.
  destruct (as_truthy (query_params request !! "error")) as [error|] eqn:Herr.
  { apply as_truthy_Some in Herr as [Herr Hne].
    rewrite (callback_error kerliix_client session_id request error w Herr Hne).
    cbn [snd].
    rewrite (callback_error replay_client replay_session_id request error w Herr Hne).
    split; [by eexists | done]. }
  destruct (as_truthy (query_params request !! "code")) as [code|] eqn:Hcode.
  2:{ rewrite (callback_missing kerliix_client session_id request w Herr
                 (or_introl Hcode)). cbn [snd].
      rewrite (callback_missing replay_client replay_session_id request w Herr
                 (or_introl Hcode)).
      split; [by eexists | done]. }
  destruct (as_truthy (query_params request !! "state")) as [state|] eqn:Hstate.
  2:{ rewrite (callback_missing kerliix_client session_id request w Herr
                 (or_intror Hstate)). cbn [snd].
      rewrite (callback_missing replay_client replay_session_id request w Herr
                 (or_intror Hstate)).
      split; [by eexists | done]. }
  pose proof (callback_lookup_consumes code state w Herr Hcode Hstate) as Hpop.
  rewrite (callback_unknown_state replay_client replay_session_id request code state
             _ Herr Hcode Hstate).
  - cbn [fst snd SESSION_STORE IDP_CALLS]. split; [by eexists | done].
  - rewrite Hpop. by rewrite lookup_delete_eq.
Qed.

End CallbackTwice.

(** ** Initiation (lines 85-101) *)

Section Login.
Variable kerliix_client : KerliixOAuth.
Variable state : string.
Variable scopes : option string.

(** Lines 91-94. *)
Lemma login_no_verifier (auth : gmap string string) (w : World) :
  get_auth_url kerliix_client (requested_scopes_of scopes) state true = Ok auth ->
  as_truthy (py_or (auth !! "codeVerifier") (auth !! "code_verifier")) = None ->
  login kerliix_client state scopes w =
    (Raise (HTTPException 500 (JStr "PKCE code verifier not generated")),
     {| SESSION_STORE := SESSION_STORE w;
        PKCE_STORE := PKCE_STORE w;
        IDP_CALLS := IDP_CALLS w ++ [GetAuthUrl (requested_scopes_of scopes) state true] |}).
Proof.
  intros Hauth Hcv. unfold login, bind, propagate, await.
  rewrite Hauth, Hcv. reflexivity.
Qed.

(** Lines 96-101: the assignment of line 97 is unconditional. *)
Lemma login_registers (auth : gmap string string) (code_verifier : string) (w : World) :
  get_auth_url kerliix_client (requested_scopes_of scopes) state true = Ok auth ->
  as_truthy (py_or (auth !! "codeVerifier") (auth !! "code_verifier")) = Some code_verifier ->
  login kerliix_client state scopes w =
    (match auth !! "url" with
     | Some redirect_url => Ok (RedirectResponse redirect_url [])
     | None => Raise (Uncaught (Exception "'url'"))
     end,
     {| SESSION_STORE := SESSION_STORE w;
        PKCE_STORE := <[state := code_verifier]> (PKCE_STORE w);
        IDP_CALLS := IDP_CALLS w ++ [GetAuthUrl (requested_scopes_of scopes) state true] |}).
Proof.
  intros Hauth Hcv. unfold login, bind, propagate, await.
  rewrite Hauth, Hcv.
  cbn [PKCE_STORE_setitem getitem]. by destruct (auth !! "url").
Qed.

End Login.

(** ** Session-bound handlers (lines 147-233) *)

Section AccessToken.

(** A dict token never raises: [getattr] gives [None], [.get] answers. *)
Lemma access_token_of_dict (items : gmap string string) :
  access_token_of (TokenDict items) = Ok (items !! "access_token").
Proof. reflexivity. Qed.

(** An object token with a non-empty [access_token] attribute. *)
Lemma access_token_of_object (attrs : gmap string string) (s : string) :
  attrs !! "access_token" = Some s -> s ≠ "" ->
  access_token_of (TokenObject attrs) = Ok (Some s).
Proof.
  intros Ha Hs. unfold access_token_of. cbn [getattr]. rewrite Ha.
  cbn [truthy]. by rewrite str_truthy_ne.
Qed.

(** An object token whose attribute is missing or empty falls through to
    [.get], which it does not have. *)
Lemma access_token_of_object_raises (attrs : gmap string string) :
  truthy (attrs !! "access_token") = false ->
  exists e, access_token_of (TokenObject attrs) = Raise e.
Proof.
  intros Ha. unfold access_token_of. cbn [getattr]. rewrite Ha. by eexists.
Qed.

End AccessToken.

Section SessionBound.
Variable kerliix_client : KerliixOAuth.
Variable request : Request.

(** Lines 152-154, 180-182, 218-220. *)
Lemma me_no_cookie (w : World) :
  as_truthy (_get_session_id request) = None ->
  me kerliix_client request w = (Raise (HTTPException 401 (JStr "No session")), w).
Proof. intros H. unfold me. by rewrite H. Qed.

Lemma revoke_no_cookie (w : World) :
  as_truthy (_get_session_id request) = None ->
  revoke kerliix_client request w = (Raise (HTTPException 401 (JStr "No session")), w).
Proof. intros H. unfold revoke. by rewrite H. Qed.

Lemma tokens_no_cookie (w : World) :
  as_truthy (_get_session_id request) = None ->
  tokens request w = (Raise (HTTPException 401 (JStr "No session")), w).
Proof. intros H. unfold tokens. by rewrite H. Qed.

(** Lines 156-158 and 222-224 answer an unknown session differently. *)
Lemma me_unknown_session (session_id : string) (w : World) :
  as_truthy (_get_session_id request) = Some session_id ->
  SESSION_STORE w !! session_id = None ->
  me kerliix_client request w =
    (Raise (HTTPException 401 (JStr "No tokens found for session")), w).
Proof.
  intros Hc Hs. unfold me. rewrite Hc.
  unfold bind, SESSION_STORE_get. by rewrite Hs.
Qed.

Lemma tokens_unknown_session (session_id : string) (w : World) :
  as_truthy (_get_session_id request) = Some session_id ->
  SESSION_STORE w !! session_id = None ->
  tokens request w = (Raise (HTTPException 404 (JStr "No token for session")), w).
Proof.
  intros Hc Hs. unfold tokens. rewrite Hc.
  unfold bind, SESSION_STORE_get. by rewrite Hs.
Qed.

(** Lines 161-172: once the access token has been read, the reply is
    decided by [getUserInfo]; no store is written on any path. *)
Lemma me_provider_call (session_id : string) (stored : gmap string token_obj)
    (token : token_obj) (access_token : option string) (w : World) :
  as_truthy (_get_session_id request) = Some session_id ->
  SESSION_STORE w !! session_id = Some stored ->
  stored !! "token" = Some token ->
  access_token_of token = Ok access_token ->
  me kerliix_client request w =
    (match getUserInfo kerliix_client access_token with
     | Ok user_info => Ok (JSONResponse user_info [])
     | Raise (OAuthError code message) =>
         Raise (HTTPException 401 (JDict [("oauth_error", JStr code);
                                          ("message", JStr message)]))
     | Raise (Exception message) =>
         Raise (HTTPException 500 (JStr ("Failed to fetch user info: " ++ message)))
     end,
     {| SESSION_STORE := SESSION_STORE w;
        PKCE_STORE := PKCE_STORE w;
        IDP_CALLS := IDP_CALLS w ++ [GetUserInfo access_token] |}).
Proof.
  intros Hc Hs Ht Ha. unfold me. rewrite Hc.
  unfold bind at 1. unfold SESSION_STORE_get at 1. rewrite Hs.
  destruct (dict_with_key_truthy stored "token" token Ht) as [-> ->].
  cbn [negb orb].
  unfold bind, try_except, getitem, ret, eval, await, raise. rewrite Ht, Ha.
  by destruct (getUserInfo kerliix_client access_token) as [?|[]].
Qed.

(** Lines 184-186. *)
Lemma revoke_no_token (session_id : string) (stored : gmap string token_obj) (w : World) :
  as_truthy (_get_session_id request) = Some session_id ->
  SESSION_STORE w !! session_id = Some stored ->
  stored !! "token" = None ->
  revoke kerliix_client request w =
    (Raise (HTTPException 400 (JStr "No token to revoke")), w).
Proof.
  intros Hc Hs Ht. unfold revoke. rewrite Hc.
  unfold bind at 1. unfold SESSION_STORE_get at 1. rewrite Hs.
  rewrite (dict_without_key stored "token" Ht).
  by rewrite orb_true_r.
Qed.

(** Lines 188-209: all three arms pop the session and delete the cookie. *)
Lemma revoke_provider_call (session_id : string) (stored : gmap string token_obj)
    (token : token_obj) (access_token : option string) (w : World) :
  as_truthy (_get_session_id request) = Some session_id ->
  SESSION_STORE w !! session_id = Some stored ->
  stored !! "token" = Some token ->
  access_token_of token = Ok access_token ->
  revoke kerliix_client request w =
    (Ok (JSONResponse
           (match revokeToken kerliix_client access_token with
            | Ok _ => JDict [("revoked", JBool true)]
            | Raise (OAuthError code message) =>
                JDict [("revoked", JBool false); ("error", JStr code);
                       ("message", JStr message)]
            | Raise (Exception message) =>
                JDict [("revoked", JBool false); ("message", JStr message)]
            end)
           [DeleteCookie "session_id"]),
     {| SESSION_STORE := delete session_id (SESSION_STORE w);
        PKCE_STORE := PKCE_STORE w;
        IDP_CALLS := IDP_CALLS w ++ [RevokeToken access_token] |}).
Proof.
  intros Hc Hs Ht Ha. unfold revoke. rewrite Hc.
  unfold bind at 1. unfold SESSION_STORE_get at 1. rewrite Hs.
  destruct (dict_with_key_truthy stored "token" token Ht) as [-> ->].
  cbn [negb orb].
  unfold bind, propagate, try_except, getitem, ret, eval, await, raise,
    SESSION_STORE_pop.
  rewrite Ht, Ha.
  by destruct (revokeToken kerliix_client access_token) as [?|[]].
Qed.

(** Line 189 sits outside the [try]: when reading the access token
    raises, the exception leaves the handler before any call or pop. *)
Lemma revoke_access_token_raises (session_id : string)
    (stored : gmap string token_obj) (token : token_obj) (e : exception) (w : World) :
  as_truthy (_get_session_id request) = Some session_id ->
  SESSION_STORE w !! session_id = Some stored ->
  stored !! "token" = Some token ->
  access_token_of token = Raise e ->
  revoke kerliix_client request w = (Raise (Uncaught e), w).
Proof.
  intros Hc Hs Ht Ha. unfold revoke. rewrite Hc.
  unfold bind at 1. unfold SESSION_STORE_get at 1. rewrite Hs.
  destruct (dict_with_key_truthy stored "token" token Ht) as [-> ->].
  cbn [negb orb].
  unfold bind, propagate, getitem, ret, eval, raise. by rewrite Ht, Ha.
Qed.

End SessionBound.

(** ** Worked scenarios *)

(** ["openid  profile".split(" ")] keeps the empty piece. *)
Example split_double_space :
  requested_scopes_of (Some "openid  profile") = Some ["openid"; ""; "profile"].
Proof. reflexivity. Qed.

(** Scenario B: the first callback creates the session and sets the
    cookie, the replay is refused. *)
Example scenario_replay :
  let request := request_of [] [("code", "X"); ("state", "s")] in
  let first := callback accepting_client "n1" request example_world in
  let second := callback accepting_client "n2" request first.2 in
  first.1 = Ok (RedirectResponse "http://localhost:5176/?logged_in=1"
                  [SetCookie "session_id" "n1" true false "lax"]) /\
  SESSION_STORE first.2 !! "n1" =
    Some {[ "token" := TokenObject {[ "access_token" := "at"; "token_type" := "Bearer" ]} ]} /\
  status second.1 = 400 /\
  SESSION_STORE second.2 !! "n2" = None.
Proof. vm_compute. done. Qed.

(** Scenario E: the provider's revoke throws, the session is gone and a
    later [/me] with the old cookie is a 401. *)
Example scenario_revoke_throws :
  let request := request_of [("session_id", "sid")] [] in
  let run := revoke failing_client request example_world in
  revoked_flag run.1 = Some false /\
  clears_session_cookie run.1 = true /\
  status (me accepting_client request run.2).1 = 401.
Proof. vm_compute. done. Qed.

(** A dataclass token without a usable [access_token]: line 189 raises
    before the [try], and the record stays. *)
Example revoke_object_without_access_token :
  let request := request_of [("session_id", "sid")] [] in
  let w := {| SESSION_STORE := {[ "sid" := {[ "token" := TokenObject ∅ ]} ]};
              PKCE_STORE := ∅; IDP_CALLS := [] |} in
  status (revoke accepting_client request w).1 = 500 /\
  (revoke accepting_client request w).2 = w.
Proof. vm_compute. done. Qed.

(** ** Claims about the PKCE correlation store and the callback *)

(** C1. [takeOnce(state)] is the [PKCE_STORE.pop(state, None)] of line
    121 inside [callback].  A callback that presents [state] either stops
    before the lookup (lines 114, 119: a 400 and nothing touched) or its
    lookup removes the record, whatever the lookup found and whatever the
    exchange then did; so the same callback presented again, to any
    provider, never obtains a verifier: it is answered with a 400, calls
    no provider and creates no session.  A state that was never
    registered, or that an earlier pop consumed, is reported absent and
    the callback presenting it is a 400 that leaves [SESSION_STORE] as it
    was. *)
Theorem takeOnce_at_most_once (kerliix_client replay_client : KerliixOAuth)
    (session_id replay_session_id : string) (request : Request) (state : string)
    (w : World) :
  query_params request !! "state" = Some state ->
  let first := callback kerliix_client session_id request w in
  let second := callback replay_client replay_session_id request first.2 in
  ((status first.1 = 400 /\ first.2 = w) \/ PKCE_STORE first.2 !! state = None) /\
  (forall code,
     query_params request !! "error" = None ->
     query_params request !! "code" = Some code -> code ≠ "" -> state ≠ "" ->
     PKCE_STORE first.2 = delete state (PKCE_STORE w) /\
     PKCE_STORE first.2 !! state = None) /\
  (status second.1 = 400 /\
   SESSION_STORE second.2 = SESSION_STORE first.2 /\
   IDP_CALLS second.2 = IDP_CALLS first.2) /\
  ((PKCE_STORE w !! state = None \/
    exists w0, w = (PKCE_STORE_pop (E:=raised) state w0).2) ->
   (PKCE_STORE_pop (E:=raised) state w).1 = Ok None /\
   status first.1 = 400 /\
   SESSION_STORE first.2 = SESSION_STORE w) /\
  (forall w0, PKCE_STORE (PKCE_STORE_pop (E:=raised) state w0).2 !! state = None).
Proof.
  intros Hstate first second.
  split.
  { destruct (callback_stops_or_consumes kerliix_client session_id request state w Hstate)
      as [[[detail Hreply] Hworld] | Hgone]; [left | by right].
    subst first. by rewrite Hreply. }
  split.
  { intros code Herr Hcode Hcne Hsne. subst first.
    rewrite (callback_lookup_consumes kerliix_client session_id request code state w).
    - split; [done | apply lookup_delete_eq].
    - by rewrite Herr.
    - rewrite Hcode. by apply as_truthy_ne.
    - rewrite Hstate. by apply as_truthy_ne. }
  split.
  { destruct (callback_replay_refused kerliix_client session_id request
                replay_client replay_session_id w) as ([detail Hreply] & Hsess & Hcalls).
    subst second first. rewrite Hreply. by split. }
  split; [|intros w0; apply PKCE_STORE_pop_removes].
  intros Hgone.
  assert (PKCE_STORE w !! state = None) as Habs.
  { destruct Hgone as [H | [w0 ->]]; [exact H | apply PKCE_STORE_pop_removes]. }
  split; [by rewrite PKCE_STORE_pop_result, Habs|].
  destruct (callback_absent_state kerliix_client session_id request state w Hstate Habs)
    as (detail & w' & Hrun & Hsess & _).
  subst first. rewrite Hrun. by split.
Qed.

Lemma takeOnce_at_most_once_witness :
  let request := request_of [] [("code", "X"); ("state", "s")] in
  let first := callback accepting_client "n1" request example_world in
  let second := callback accepting_client "n2" request first.2 in
  status first.1 = 307 /\
  PKCE_STORE first.2 !! "s" = None /\
  status second.1 = 400 /\
  SESSION_STORE second.2 = SESSION_STORE first.2 /\
  IDP_CALLS second.2 = IDP_CALLS first.2.
Proof.
  intros request first second.
  destruct (takeOnce_at_most_once accepting_client accepting_client "n1" "n2"
              request "s" example_world)
    as (_ & Hconsumed & (Hstatus & Hsess & Hcalls) & _).
  - reflexivity.
  - destruct (Hconsumed "X") as [_ Hgone];
      [reflexivity | reflexivity | discriminate | discriminate |].
    split; [reflexivity|]. split; [exact Hgone|].
    split; [exact Hstatus|]. split; [exact Hsess | exact Hcalls].
Defined.

(** C7. A callback without an [error] parameter in which [code] or
    [state] is missing raises the 400 of line 119; nothing is written to
    either store and the provider is not called. *)
Theorem callback_missing_code_or_state (kerliix_client : KerliixOAuth)
    (session_id : string) (request : Request) (w : World) :
  query_params request !! "error" = None ->
  (query_params request !! "code" = None \/ query_params request !! "state" = None) ->
  (callback kerliix_client session_id request w).1 =
    Raise (HTTPException 400 (JStr "Missing code or state in callback")) /\
  status (callback kerliix_client session_id request w).1 = 400 /\
  SESSION_STORE (callback kerliix_client session_id request w).2 = SESSION_STORE w /\
  (callback kerliix_client session_id request w).2 = w.
Proof.
  intros Herr Hmiss.
  rewrite (callback_missing kerliix_client session_id request w).
  - done.
  - by rewrite Herr.
  - destruct Hmiss as [-> | ->]; [by left | by right].
Qed.

Lemma callback_missing_code_or_state_witness :
  let request := request_of [] [("state", "s")] in
  status (callback failing_client "n" request example_world).1 = 400 /\
  SESSION_STORE (callback failing_client "n" request example_world).2 =
    SESSION_STORE example_world.
Proof.
  intros request.
  destruct (callback_missing_code_or_state failing_client "n" request example_world)
    as (_ & Hstatus & Hsess & _).
  - reflexivity.
  - left. reflexivity.
  - split; [exact Hstatus | exact Hsess].
Defined.

(** C5, as the code has it.  With a non-empty [error] parameter the
    callback raises a 400 whose detail holds the provider's code under the
    key [error] and the description (or [None]) under [error_description],
    both verbatim; the stores are untouched and no call reaches the
    provider. *)
Theorem callback_provider_error (kerliix_client : KerliixOAuth)
    (session_id : string) (request : Request) (error : string) (w : World) :
  query_params request !! "error" = Some error ->
  error ≠ "" ->
  let reply := (callback kerliix_client session_id request w).1 in
  status reply = 400 /\
  (exists detail, detail_of reply = Some detail /\
     json_get "error" detail = Some (JStr error) /\
     json_get "error_description" detail =
       Some (opt_json (query_params request !! "error_description")) /\
     json_get "oauth_error" detail = None) /\
  (callback kerliix_client session_id request w).2 = w /\
  IDP_CALLS (callback kerliix_client session_id request w).2 = IDP_CALLS w.
Proof.
  intros Herr Hne reply. subst reply.
  rewrite (callback_error kerliix_client session_id request error w Herr Hne).
  split; [reflexivity|]. split; [|done].
  eexists. split; [reflexivity|]. done.
Qed.

Lemma callback_provider_error_witness :
  let request :=
    request_of [] [("error", "access_denied"); ("error_description", "user cancelled")] in
  let reply := (callback failing_client "n" request example_world).1 in
  status reply = 400 /\
  (exists detail, detail_of reply = Some detail /\
     json_get "error" detail = Some (JStr "access_denied") /\
     json_get "error_description" detail = Some (JStr "user cancelled") /\
     json_get "oauth_error" detail = None) /\
  (callback failing_client "n" request example_world).2 = example_world /\
  IDP_CALLS (callback failing_client "n" request example_world).2 =
    IDP_CALLS example_world.
Proof.
  intros request.
  apply (callback_provider_error failing_client "n" request "access_denied" example_world).
  - reflexivity.
  - discriminate.
Defined.

(** C5 as written fails on Scenario C: the detail of the 400 has no
    [oauth_error] entry.  And an [error] parameter that is present but
    empty is not treated as an error at all: the login completes. *)
Lemma callback_provider_error_counterexample :
  let denied :=
    request_of [] [("error", "access_denied"); ("error_description", "user cancelled")] in
  let empty_error := request_of [] [("error", ""); ("code", "X"); ("state", "s")] in
  ~ (exists detail,
       detail_of (callback failing_client "n" denied example_world).1 = Some detail /\
       json_get "oauth_error" detail = Some (JStr "access_denied")) /\
  status (callback accepting_client "n" empty_error example_world).1 ≠ 400.
Proof.
  intros denied empty_error. split.
  - intros [detail [Hd Hget]].
    vm_compute in Hd. injection Hd as <-. vm_compute in Hget. discriminate.
  - intros H. vm_compute in H. discriminate.
Qed.

(** C9. When the state is found but the token exchange raises, the reply
    is a 400 (structured [OAuthError]) or a 500 (anything else); the pop
    of line 121 has already removed the state and no [except] arm puts it
    back, so the same callback presented again stops at line 123 with the
    unknown-state 400, without a second call to the provider. *)
Theorem callback_failed_exchange_consumes_state
    (kerliix_client retry_client : KerliixOAuth) (session_id retry_session_id : string)
    (request : Request) (code state code_verifier : string) (e : exception) (w : World) :
  query_params request !! "error" = None ->
  query_params request !! "code" = Some code -> code ≠ "" ->
  query_params request !! "state" = Some state -> state ≠ "" ->
  PKCE_STORE w !! state = Some code_verifier -> code_verifier ≠ "" ->
  exchangeCodeForToken kerliix_client code code_verifier = Raise e ->
  let first := callback kerliix_client session_id request w in
  let second := callback retry_client retry_session_id request first.2 in
  status first.1 = match e with OAuthError _ _ => 400 | Exception _ => 500 end /\
  PKCE_STORE first.2 !! state = None /\
  SESSION_STORE first.2 = SESSION_STORE w /\
  second.1 = Raise (HTTPException 400
                      (JStr "Unknown or expired state (PKCE code verifier missing)")) /\
  status second.1 = 400 /\
  IDP_CALLS second.2 = IDP_CALLS first.2 /\
  SESSION_STORE second.2 = SESSION_STORE w.
Proof.
  intros Herr Hcode Hcne Hstate Hsne Hcv Hvne Hex first second.
  assert (as_truthy (query_params request !! "error") = None) as Herr'
    by (by rewrite Herr).
  assert (as_truthy (query_params request !! "code") = Some code) as Hcode'
    by (rewrite Hcode; by apply as_truthy_ne).
  assert (as_truthy (query_params request !! "state") = Some state) as Hstate'
    by (rewrite Hstate; by apply as_truthy_ne).
  assert (as_truthy (PKCE_STORE w !! state) = Some code_verifier) as Hcv'
    by (rewrite Hcv; by apply as_truthy_ne).
  subst second first.
  rewrite (callback_exchange_failed kerliix_client session_id request
             code state code_verifier e w Herr' Hcode' Hstate' Hcv' Hex).
  cbn [fst snd].
  rewrite (callback_unknown_state retry_client retry_session_id request code state);
    [| done | done | done | cbn [PKCE_STORE]; by rewrite lookup_delete_eq].
  cbn [fst snd SESSION_STORE PKCE_STORE IDP_CALLS].
  split; [by destruct e|]. split; [apply lookup_delete_eq|]. done.
Qed.

Lemma callback_failed_exchange_consumes_state_witness :
  let request := request_of [] [("code", "c"); ("state", "s")] in
  let first := callback failing_client "n" request example_world in
  let second := callback failing_client "m" request first.2 in
  status first.1 = 400 /\
  PKCE_STORE first.2 !! "s" = None /\
  SESSION_STORE first.2 = SESSION_STORE example_world /\
  second.1 = Raise (HTTPException 400
                      (JStr "Unknown or expired state (PKCE code verifier missing)")) /\
  status second.1 = 400 /\
  IDP_CALLS second.2 = IDP_CALLS first.2 /\
  SESSION_STORE second.2 = SESSION_STORE example_world.
Proof.
  intros request.
  apply (callback_failed_exchange_consumes_state failing_client failing_client "n" "m"
           request "c" "s" "old" (OAuthError "invalid_grant" "code expired") example_world).
  - reflexivity.
  - reflexivity.
  - discriminate.
  - reflexivity.
  - discriminate.
  - reflexivity.
  - discriminate.
  - reflexivity.
Defined.

(** ** Claims about initiation *)

(** C6. If the dict returned by [get_auth_url] holds no truthy verifier
    under [codeVerifier] or [code_verifier], [login] raises the 500 of
    line 94: the reply is not a redirect and nothing is registered in
    [PKCE_STORE]. *)
Theorem login_requires_verifier (kerliix_client : KerliixOAuth) (state : string)
    (scopes : option string) (auth : gmap string string) (w : World) :
  get_auth_url kerliix_client (requested_scopes_of scopes) state true = Ok auth ->
  truthy (auth !! "codeVerifier") = false ->
  truthy (auth !! "code_verifier") = false ->
  let reply := (login kerliix_client state scopes w).1 in
  reply = Raise (HTTPException 500 (JStr "PKCE code verifier not generated")) /\
  status reply = 500 /\
  (forall url hs, reply ≠ Ok (RedirectResponse url hs)) /\
  PKCE_STORE (login kerliix_client state scopes w).2 = PKCE_STORE w /\
  SESSION_STORE (login kerliix_client state scopes w).2 = SESSION_STORE w.
Proof.
  intros Hauth H1 H2 reply. subst reply.
  rewrite (login_no_verifier kerliix_client state scopes auth w Hauth
             (py_or_falsy _ _ H1 H2)).
  cbn [fst snd PKCE_STORE SESSION_STORE]. repeat split; try done.
Qed.

Lemma login_requires_verifier_witness :
  let reply := (login client_without_verifier "s2" (Some "openid profile") example_world).1 in
  reply = Raise (HTTPException 500 (JStr "PKCE code verifier not generated")) /\
  status reply = 500 /\
  (forall url hs, reply ≠ Ok (RedirectResponse url hs)) /\
  PKCE_STORE (login client_without_verifier "s2" (Some "openid profile") example_world).2 =
    PKCE_STORE example_world /\
  SESSION_STORE (login client_without_verifier "s2" (Some "openid profile") example_world).2 =
    SESSION_STORE example_world.
Proof.
  apply (login_requires_verifier client_without_verifier "s2" (Some "openid profile")
           {[ "url" := "https://api.kerliix.com/oauth/authorize" ]} example_world).
  - reflexivity.
  - reflexivity.
  - reflexivity.
Defined.

(** C4, as the code has it.  Line 97 is a plain dictionary assignment:
    when the drawn state is already a key of [PKCE_STORE], its verifier is
    replaced by the new one and the request is answered with the usual
    redirect; no duplicate-state failure exists. *)
Theorem login_put_replaces (kerliix_client : KerliixOAuth) (state : string)
    (scopes : option string) (auth : gmap string string)
    (old_verifier code_verifier redirect_url : string) (w : World) :
  get_auth_url kerliix_client (requested_scopes_of scopes) state true = Ok auth ->
  as_truthy (py_or (auth !! "codeVerifier") (auth !! "code_verifier")) = Some code_verifier ->
  auth !! "url" = Some redirect_url ->
  PKCE_STORE w !! state = Some old_verifier ->
  (login kerliix_client state scopes w).1 = Ok (RedirectResponse redirect_url []) /\
  PKCE_STORE (login kerliix_client state scopes w).2 = <[state := code_verifier]> (PKCE_STORE w) /\
  PKCE_STORE (login kerliix_client state scopes w).2 !! state = Some code_verifier.
Proof.
  intros Hauth Hcv Hurl _.
  rewrite (login_registers kerliix_client state scopes auth code_verifier w Hauth Hcv).
  rewrite Hurl. cbn [fst snd PKCE_STORE].
  split; [done|]. split; [done|]. apply lookup_insert_eq.
Qed.

Lemma login_put_replaces_witness :
  (login failing_client "s" None example_world).1 =
    Ok (RedirectResponse "https://api.kerliix.com/oauth/authorize?state=s" []) /\
  PKCE_STORE (login failing_client "s" None example_world).2 =
    <["s" := "new"]> (PKCE_STORE example_world) /\
  PKCE_STORE (login failing_client "s" None example_world).2 !! "s" = Some "new".
Proof.
  apply (login_put_replaces failing_client "s" None
           {[ "url" := "https://api.kerliix.com/oauth/authorize?state=s";
              "codeVerifier" := "new" ]} "old" "new").
  - reflexivity.
  - reflexivity.
  - reflexivity.
  - reflexivity.
Defined.

(** C4 as written fails: with ["s"] already registered, [login] drawing
    ["s"] again does not fail and the stored verifier changes. *)
Lemma login_put_duplicate_counterexample :
  let run := login failing_client "s" None example_world in
  is_Some (PKCE_STORE example_world !! "s") /\
  ~ (exists e, run.1 = Raise e) /\
  PKCE_STORE run.2 !! "s" ≠ PKCE_STORE example_world !! "s".
Proof.
  intros run. split; [by eexists|]. split.
  - intros [e He]. vm_compute in He. discriminate.
  - intros Heq. vm_compute in Heq. discriminate.
Qed.

(** ** Claims about the session-bound operations *)

(** Past line 189.  For a session whose record holds a token from which
    line 189 reads an access token, [revoke] calls the provider once and
    then, in each of the three outcomes (return, [OAuthError], any other
    exception), pops the session, answers 200 with [delete_cookie], and
    reports [revoked] as true exactly when [revokeToken] returned. *)
Theorem revoke_always_clears_session (kerliix_client : KerliixOAuth) (request : Request)
    (session_id : string) (stored : gmap string token_obj) (token : token_obj)
    (access_token : option string) (w : World) :
  _get_session_id request = Some session_id -> session_id ≠ "" ->
  SESSION_STORE w !! session_id = Some stored ->
  stored !! "token" = Some token ->
  access_token_of token = Ok access_token ->
  let run := revoke kerliix_client request w in
  IDP_CALLS run.2 = (IDP_CALLS w ++ [RevokeToken access_token])%list /\
  SESSION_STORE run.2 = delete session_id (SESSION_STORE w) /\
  SESSION_STORE run.2 !! session_id = None /\
  clears_session_cookie run.1 = true /\
  status run.1 = 200 /\
  (exists revoked, revoked_flag run.1 = Some revoked /\
     (revoked = true <-> revokeToken kerliix_client access_token = Ok tt)) /\
  run.1 =
    Ok (JSONResponse
          (match revokeToken kerliix_client access_token with
           | Ok _ => JDict [("revoked", JBool true)]
           | Raise (OAuthError code message) =>
               JDict [("revoked", JBool false); ("error", JStr code);
                      ("message", JStr message)]
           | Raise (Exception message) =>
               JDict [("revoked", JBool false); ("message", JStr message)]
           end)
          [DeleteCookie "session_id"]).
Proof.
  intros Hc Hne Hs Ht Ha run. subst run.
  rewrite (revoke_provider_call kerliix_client request session_id stored token
             access_token w); [| rewrite Hc; by apply as_truthy_ne | done..].
  cbn [fst snd SESSION_STORE IDP_CALLS].
  split; [done|]. split; [done|]. split; [apply lookup_delete_eq|].
  split; [reflexivity|]. split; [reflexivity|]. split; [|reflexivity].
  destruct (revokeToken kerliix_client access_token) as [[]|[c m|m]].
  - exists true. by split.
  - exists false. split; [reflexivity|]. split; discriminate.
  - exists false. split; [reflexivity|]. split; discriminate.
Qed.

Lemma revoke_always_clears_session_witness :
  let request := request_of [("session_id", "sid")] [] in
  let run := revoke failing_client request example_world in
  SESSION_STORE run.2 !! "sid" = None /\
  clears_session_cookie run.1 = true /\
  revoked_flag run.1 = Some false.
Proof.
  intros request run.
  destruct (revoke_always_clears_session failing_client request "sid"
              {[ "token" := TokenDict {[ "access_token" := "at" ]} ]}
              (TokenDict {[ "access_token" := "at" ]}) (Some "at") example_world)
    as (_ & _ & Hgone & Hcookie & _ & _ & Hreply).
  - reflexivity.
  - discriminate.
  - reflexivity.
  - reflexivity.
  - reflexivity.
  - split; [exact Hgone|]. split; [exact Hcookie|].
    subst run. rewrite Hreply. reflexivity.
Defined.


(** C3, as the code has it.  Without a session cookie both [/me] and
    [/tokens] answer 401.  When the cookie names a session that is not in
    [SESSION_STORE], [/me] answers 401 and [/tokens] answers 404 (an empty
    cookie value counts as no cookie).  Neither touches the world. *)
Theorem session_gate_status (kerliix_client : KerliixOAuth) (request : Request) (w : World) :
  (_get_session_id request = None \/
   exists session_id,
     _get_session_id request = Some session_id /\ SESSION_STORE w !! session_id = None) ->
  status (me kerliix_client request w).1 = 401 /\
  status (tokens request w).1 = (if truthy (_get_session_id request) then 404 else 401) /\
  (me kerliix_client request w).2 = w /\
  (tokens request w).2 = w.
Proof.
  intros Hgate.
  destruct (as_truthy (_get_session_id request)) as [sid|] eqn:Hc.
  - apply as_truthy_Some in Hc as Hc'. destruct Hc' as [Hsome Hne].
    assert (SESSION_STORE w !! sid = None) as Habs.
    { destruct Hgate as [Hnone | (sid' & Hsid' & Habs)]; [congruence|].
      by replace sid with sid' by congruence. }
    rewrite (me_unknown_session kerliix_client request sid w Hc Habs).
    rewrite (tokens_unknown_session request sid w Hc Habs).
    rewrite Hsome. cbn [truthy]. by rewrite (str_truthy_ne _ Hne).
  - rewrite (me_no_cookie kerliix_client request w Hc).
    rewrite (tokens_no_cookie request w Hc).
    replace (truthy (_get_session_id request)) with false; [done|].
    destruct (_get_session_id request) as [s|]; [|done].
    cbn in Hc |- *. by destruct (str_truthy s).
Qed.

Lemma session_gate_status_witness :
  let request := request_of [("session_id", "ghost")] [] in
  status (me failing_client request example_world).1 = 401 /\
  status (tokens request example_world).1 = 404.
Proof.
  intros request.
  destruct (session_gate_status failing_client request example_world)
    as (Hme & Htokens & _).
  - right. exists "ghost". split; reflexivity.
  - split; [exact Hme | exact Htokens].
Defined.

(** C3 as written fails for [/tokens]: a cookie naming an unknown session
    is answered with 404, not 401. *)
Lemma session_gate_counterexample :
  let request := request_of [("session_id", "ghost")] [] in
  _get_session_id request = Some "ghost" /\
  SESSION_STORE example_world !! "ghost" = None /\
  status (tokens request example_world).1 ≠ 401.
Proof.
  intros request. split; [reflexivity|]. split; [reflexivity|].
  intros H. vm_compute in H. discriminate.
Qed.

(** C8. With a session whose access token can be read, an [OAuthError]
    from [getUserInfo] becomes the 401 of line 168, and [SESSION_STORE] is
    exactly what it was: the session record is still there. *)
Theorem me_provider_failure_keeps_session (kerliix_client : KerliixOAuth)
    (request : Request) (session_id : string) (stored : gmap string token_obj)
    (token : token_obj) (access_token : option string) (code message : string)
    (w : World) :
  _get_session_id request = Some session_id -> session_id ≠ "" ->
  SESSION_STORE w !! session_id = Some stored ->
  stored !! "token" = Some token ->
  access_token_of token = Ok access_token ->
  getUserInfo kerliix_client access_token = Raise (OAuthError code message) ->
  let run := me kerliix_client request w in
  run.1 = Raise (HTTPException 401 (JDict [("oauth_error", JStr code);
                                           ("message", JStr message)])) /\
  status run.1 = 401 /\
  SESSION_STORE run.2 = SESSION_STORE w /\
  SESSION_STORE run.2 !! session_id = Some stored.
Proof.
  intros Hc Hne Hs Ht Ha Hui run. subst run.
  rewrite (me_provider_call kerliix_client request session_id stored token
             access_token w); [| rewrite Hc; by apply as_truthy_ne | done..].
  rewrite Hui. cbn [fst snd SESSION_STORE]. done.
Qed.

Lemma me_provider_failure_keeps_session_witness :
  let request := request_of [("session_id", "sid")] [] in
  let run := me failing_client request example_world in
  status run.1 = 401 /\
  SESSION_STORE run.2 = SESSION_STORE example_world.
Proof.
  intros request run.
  destruct (me_provider_failure_keeps_session failing_client request "sid"
              {[ "token" := TokenDict {[ "access_token" := "at" ]} ]}
              (TokenDict {[ "access_token" := "at" ]}) (Some "at")
              "invalid_token" "token expired" example_world)
    as (_ & Hstatus & Hsess & _).
  - reflexivity.
  - discriminate.
  - reflexivity.
  - reflexivity.
  - reflexivity.
  - reflexivity.
  - split; [exact Hstatus | exact Hsess].
Defined.

(** Lines 184-186.  When the cookie names a record that is in
    [SESSION_STORE] but has no ["token"] entry, [revoke] raises the 400 of
    line 186 and the world is untouched: the record stays and no
    [delete_cookie] is sent.  With a token whose access token is read at
    line 189, the record is popped and the cookie deleted. *)
Theorem revoke_without_token_keeps_session (kerliix_client : KerliixOAuth)
    (request : Request) (session_id : string) (stored : gmap string token_obj)
    (w : World) :
  _get_session_id request = Some session_id -> session_id ≠ "" ->
  SESSION_STORE w !! session_id = Some stored ->
  stored !! "token" = None ->
  let run := revoke kerliix_client request w in
  (run.1 = Raise (HTTPException 400 (JStr "No token to revoke")) /\
   status run.1 = 400 /\
   run.2 = w /\
   SESSION_STORE run.2 !! session_id = Some stored /\
   clears_session_cookie run.1 = false) /\
  (forall (w' : World) (stored' : gmap string token_obj) token access_token,
     SESSION_STORE w' !! session_id = Some stored' ->
     stored' !! "token" = Some token ->
     access_token_of token = Ok access_token ->
     SESSION_STORE (revoke kerliix_client request w').2 !! session_id = None /\
     clears_session_cookie (revoke kerliix_client request w').1 = true).
Proof.
  intros Hc Hne Hs Ht run. subst run.
  assert (as_truthy (_get_session_id request) = Some session_id) as Hc'
    by (rewrite Hc; by apply as_truthy_ne).
  split.
  - rewrite (revoke_no_token kerliix_client request session_id stored w Hc' Hs Ht).
    cbn [fst snd]. done.
  - intros w' stored' token access_token Hs' Ht' Ha'.
    rewrite (revoke_provider_call kerliix_client request session_id stored' token
               access_token w' Hc' Hs' Ht' Ha').
    cbn [fst snd SESSION_STORE]. split; [apply lookup_delete_eq | reflexivity].
Qed.

Lemma revoke_without_token_keeps_session_witness :
  let request := request_of [("session_id", "bare")] [] in
  let run := revoke failing_client request example_world in
  status run.1 = 400 /\
  run.2 = example_world /\
  SESSION_STORE run.2 !! "bare" = Some ∅ /\
  clears_session_cookie run.1 = false.
Proof.
  intros request run.
  destruct (revoke_without_token_keeps_session failing_client request "bare" ∅
              example_world) as ((_ & Hstatus & Hworld & Hkept & Hcookie) & _).
  - reflexivity.
  - discriminate.
  - reflexivity.
  - reflexivity.
  - split; [exact Hstatus|]. split; [exact Hworld|]. split; [exact Hkept | exact Hcookie].
Defined.


(** ** Further properties of the callback *)


(** X2. The callback never adds a pending login: [PKCE_STORE] is either
    unchanged or has lost exactly the entry of the presented [state]. *)
Theorem callback_only_consumes_presented_state (kerliix_client : KerliixOAuth)
    (session_id : string) (request : Request) (w : World) :
  PKCE_STORE (callback kerliix_client session_id request w).2 = PKCE_STORE w \/
  exists state,
    query_params request !! "state" = Some state /\
    PKCE_STORE (callback kerliix_client session_id request w).2 =
      delete state (PKCE_STORE w).
Proof.
  callback_cases kerliix_client session_id request w; cbn [fst snd PKCE_STORE];
    try (by left);
    right; exists state; by apply as_truthy_Some in Hstate as [-> _].
Qed.

(** X3. The callback contacts the provider at most once, only to exchange
    the code, and then with the [code] of the query and the verifier that
    [PKCE_STORE] held for the presented [state]. *)
Theorem callback_exchange_binds_state (kerliix_client : KerliixOAuth)
    (session_id : string) (request : Request) (w : World) :
  IDP_CALLS (callback kerliix_client session_id request w).2 = IDP_CALLS w \/
  exists code state code_verifier,
    query_params request !! "code" = Some code /\
    query_params request !! "state" = Some state /\
    PKCE_STORE w !! state = Some code_verifier /\
    IDP_CALLS (callback kerliix_client session_id request w).2 =
      (IDP_CALLS w ++ [ExchangeCodeForToken code code_verifier])%list.
Proof.
  callback_cases kerliix_client session_id request w; cbn [fst snd IDP_CALLS];
    try (by left);
    right; exists code, state, cv;
    apply as_truthy_Some in Hcode as [-> _];
    apply as_truthy_Some in Hstate as [-> _];
    by apply as_truthy_Some in Hcv as [-> _].
Qed.

(** X4. A successful callback: with a non-empty [code], a registered
    [state] and a provider that returns a token, the session is stored
    under the drawn id (replacing a record that may already be there),
    every other session is untouched, and the state is consumed. *)
Theorem callback_success (kerliix_client : KerliixOAuth) (session_id : string)
    (request : Request) (code state code_verifier : string)
    (token_response : token_obj) (w : World) :
  query_params request !! "error" = None ->
  query_params request !! "code" = Some code -> code ≠ "" ->
  query_params request !! "state" = Some state -> state ≠ "" ->
  PKCE_STORE w !! state = Some code_verifier -> code_verifier ≠ "" ->
  exchangeCodeForToken kerliix_client code code_verifier = Ok token_response ->
  let run := callback kerliix_client session_id request w in
  status run.1 = 307 /\
  run.1 = Ok (RedirectResponse "http://localhost:5176/?logged_in=1"
                [SetCookie "session_id" session_id true false "lax"]) /\
  SESSION_STORE run.2 !! session_id = Some {[ "token" := token_response ]} /\
  (forall other, other ≠ session_id ->
     SESSION_STORE run.2 !! other = SESSION_STORE w !! other) /\
  PKCE_STORE run.2 !! state = None /\
  (forall other, other ≠ state -> PKCE_STORE run.2 !! other = PKCE_STORE w !! other).
Proof.
  intros Herr Hcode Hcne Hstate Hsne Hcv Hvne Hex run. subst run.
  rewrite (callback_exchange_ok kerliix_client session_id request
             code state code_verifier token_response w).
  - cbn [fst snd SESSION_STORE PKCE_STORE status].
    split; [done|]. split; [done|].
    split; [apply lookup_insert_eq|].
    split; [intros other Hne; by apply lookup_insert_ne|].
    split; [apply lookup_delete_eq|].
    intros other Hne. by apply lookup_delete_ne.
  - by rewrite Herr.
  - rewrite Hcode. by apply as_truthy_ne.
  - rewrite Hstate. by apply as_truthy_ne.
  - rewrite Hcv. by apply as_truthy_ne.
  - done.
Qed.

Lemma callback_success_witness :
  let request := request_of [] [("code", "X"); ("state", "s")] in
  let run := callback accepting_client "sid" request example_world in
  status run.1 = 307 /\
  SESSION_STORE run.2 !! "sid" =
    Some {[ "token" := TokenObject {[ "access_token" := "at"; "token_type" := "Bearer" ]} ]} /\
  SESSION_STORE run.2 !! "bare" = Some ∅ /\
  PKCE_STORE run.2 !! "s" = None.
Proof.
  intros request run.
  destruct (callback_success accepting_client "sid" request "X" "s" "old"
              (TokenObject {[ "access_token" := "at"; "token_type" := "Bearer" ]})
              example_world)
    as (Hstatus & _ & Hnew & Hothers & Hgone & _).
  - reflexivity.
  - reflexivity.
  - discriminate.
  - reflexivity.
  - discriminate.
  - reflexivity.
  - discriminate.
  - reflexivity.
  - split; [exact Hstatus|]. split; [exact Hnew|]. split; [|exact Hgone].
    subst run. rewrite (Hothers "bare"); [reflexivity | discriminate].
Defined.

(** X5. Replay after success: the same callback presented again is
    refused with the unknown-state 400; it reaches no provider and the
    store still holds the one session of the first run. *)
Theorem callback_replay_after_success
    (kerliix_client replay_client : KerliixOAuth) (session_id replay_session_id : string)
    (request : Request) (code state code_verifier : string)
    (token_response : token_obj) (w : World) :
  query_params request !! "error" = None ->
  query_params request !! "code" = Some code -> code ≠ "" ->
  query_params request !! "state" = Some state -> state ≠ "" ->
  PKCE_STORE w !! state = Some code_verifier -> code_verifier ≠ "" ->
  exchangeCodeForToken kerliix_client code code_verifier = Ok token_response ->
  let first := callback kerliix_client session_id request w in
  let second := callback replay_client replay_session_id request first.2 in
  second.1 = Raise (HTTPException 400
                      (JStr "Unknown or expired state (PKCE code verifier missing)")) /\
  SESSION_STORE second.2 = SESSION_STORE first.2 /\
  SESSION_STORE second.2 = <[session_id := {[ "token" := token_response ]}]> (SESSION_STORE w) /\
  IDP_CALLS second.2 = IDP_CALLS first.2.
Proof.
  intros Herr Hcode Hcne Hstate Hsne Hcv Hvne Hex first second.
  assert (as_truthy (query_params request !! "error") = None) as Herr'
    by (by rewrite Herr).
  assert (as_truthy (query_params request !! "code") = Some code) as Hcode'
    by (rewrite Hcode; by apply as_truthy_ne).
  assert (as_truthy (query_params request !! "state") = Some state) as Hstate'
    by (rewrite Hstate; by apply as_truthy_ne).
  assert (as_truthy (PKCE_STORE w !! state) = Some code_verifier) as Hcv'
    by (rewrite Hcv; by apply as_truthy_ne).
  subst second first.
  rewrite (callback_exchange_ok kerliix_client session_id request
             code state code_verifier token_response w Herr' Hcode' Hstate' Hcv' Hex).
  cbn [fst snd].
  rewrite (callback_unknown_state replay_client replay_session_id request code state);
    [done | done | done | done | cbn [PKCE_STORE]; by rewrite lookup_delete_eq].
Qed.

Lemma callback_replay_after_success_witness :
  let request := request_of [] [("code", "X"); ("state", "s")] in
  let first := callback accepting_client "n1" request example_world in
  let second := callback accepting_client "n2" request first.2 in
  status second.1 = 400 /\
  SESSION_STORE second.2 = SESSION_STORE first.2 /\
  IDP_CALLS second.2 = IDP_CALLS first.2.
Proof.
  intros request first second.
  destruct (callback_replay_after_success accepting_client accepting_client "n1" "n2"
              request "X" "s" "old"
              (TokenObject {[ "access_token" := "at"; "token_type" := "Bearer" ]})
              example_world)
    as (Hreply & Hsame & _ & Hcalls).
  - reflexivity.
  - reflexivity.
  - discriminate.
  - reflexivity.
  - discriminate.
  - reflexivity.
  - discriminate.
  - reflexivity.
  - split; [subst second first; by rewrite Hreply|].
    split; [exact Hsame | exact Hcalls].
Defined.

(** ** Further properties of initiation *)

Section Split.
Variable sep : Ascii.ascii.

Lemma split_not_nil (s : string) : split sep s ≠ [].
Proof.
  destruct s as [|c rest]; cbn; [done|].
  case_bool_decide; [done|]. by destruct (split sep rest).
Qed.

Lemma concat_cons_nonempty (x : string) (l : list string) :
  l ≠ [] ->
  String.concat (String sep "") (x :: l) = x ++ String sep (String.concat (String sep "") l).
Proof. destruct l; [done|]. reflexivity. Qed.

Lemma concat_split (s : string) : String.concat (String sep "") (split sep s) = s.
Proof.
  induction s as [|c rest IH]; [reflexivity|].
  cbn [split]. case_bool_decide as Hc.
  - rewrite concat_cons_nonempty by apply split_not_nil.
    rewrite IH. by subst c.
  - pose proof (split_not_nil rest) as Hnil.
    destruct (split sep rest) as [|h t]; [done|].
    destruct t as [|h' t'].
    + cbn in IH |- *. by rewrite IH.
    + change (String.concat (String sep "") (String c h :: h' :: t'))
        with (String c (String.concat (String sep "") (h :: h' :: t'))).
      by rewrite IH.
Qed.

Lemma split_pieces_free (s : string) :
  Forall (fun piece => sep ∉ String.list_ascii_of_string piece) (split sep s).
Proof.
  induction s as [|c rest IH]; cbn [split].
  - constructor; [|constructor]. cbn. apply not_elem_of_nil.
  - case_bool_decide as Hc.
    + constructor; [|exact IH]. cbn. apply not_elem_of_nil.
    + destruct (split sep rest) as [|h t].
      * constructor; [|constructor]. cbn. rewrite elem_of_cons.
        intros [<- | H]; [done|]. by apply not_elem_of_nil in H.
      * apply Forall_cons in IH as [Hh Ht]. constructor; [|exact Ht].
        cbn. rewrite elem_of_cons. intros [<- | H]; [done | by apply Hh].
Qed.

End Split.

Section LoginPaths.
Variable kerliix_client : KerliixOAuth.
Variable state : string.
Variable scopes : option string.

(** Line 89 is outside any [try]. *)
Lemma login_get_auth_url_raises (e : exception) (w : World) :
  get_auth_url kerliix_client (requested_scopes_of scopes) state true = Raise e ->
  login kerliix_client state scopes w =
    (Raise (Uncaught e),
     {| SESSION_STORE := SESSION_STORE w;
        PKCE_STORE := PKCE_STORE w;
        IDP_CALLS := IDP_CALLS w ++ [GetAuthUrl (requested_scopes_of scopes) state true] |}).
Proof.
  intros Hauth. unfold login, bind, propagate, await. by rewrite Hauth.
Qed.

End LoginPaths.

(** Splits a goal about [login kc state scopes w] along its three ends. *)
Ltac login_cases kc state scopes w :=
  destruct (get_auth_url kc (requested_scopes_of scopes) state true) as [auth|e] eqn:Hauth;
  [ destruct (as_truthy (py_or (auth !! "codeVerifier") (auth !! "code_verifier")))
      as [cv|] eqn:Hcv;
    [ rewrite (login_registers kc state scopes auth cv w Hauth Hcv)
    | rewrite (login_no_verifier kc state scopes auth w Hauth Hcv) ]
  | rewrite (login_get_auth_url_raises kc state scopes e w Hauth) ].

(** X6. The scopes handed to the provider: an absent or empty [scopes]
    query value becomes [None]; otherwise the value is cut at every single
    space, so the pieces contain no space and joined by one space they
    give the value back (two spaces in a row yield an empty piece). *)
Theorem requested_scopes_round_trip (scopes : option string) :
  match requested_scopes_of scopes with
  | None => scopes = None \/ scopes = Some ""
  | Some pieces =>
      exists s, scopes = Some s /\ s ≠ "" /\
        String.concat " " pieces = s /\
        Forall (fun piece => " "%char ∉ String.list_ascii_of_string piece) pieces
  end.
Proof.
  unfold requested_scopes_of.
  destruct scopes as [s|]; cbn [as_truthy]; [|by left].
  destruct s as [|c rest]; cbn [str_truthy]; [by right|].
  exists (String c rest). split; [done|]. split; [done|].
  split; [apply concat_split | apply split_pieces_free].
Qed.

(** X7. Whatever the provider does, [login] calls it exactly once, with
    the drawn state and [usePKCE=True]; it never touches [SESSION_STORE],
    and in [PKCE_STORE] it can only change the entry of the drawn state. *)
Theorem login_frame (kerliix_client : KerliixOAuth) (state : string)
    (scopes : option string) (w : World) :
  IDP_CALLS (login kerliix_client state scopes w).2 =
    (IDP_CALLS w ++ [GetAuthUrl (requested_scopes_of scopes) state true])%list /\
  SESSION_STORE (login kerliix_client state scopes w).2 = SESSION_STORE w /\
  (forall other, other ≠ state ->
     PKCE_STORE (login kerliix_client state scopes w).2 !! other = PKCE_STORE w !! other).
Proof.
  login_cases kerliix_client state scopes w;
    cbn [fst snd SESSION_STORE PKCE_STORE IDP_CALLS];
    (split; [done|]); (split; [done|]); intros other Hne; try done.
  by apply lookup_insert_ne.
Qed.

(** X8. If [get_auth_url] raises, nothing catches the exception: the
    client gets a 500 and both stores are unchanged. *)
Theorem login_provider_raises (kerliix_client : KerliixOAuth) (state : string)
    (scopes : option string) (e : exception) (w : World) :
  get_auth_url kerliix_client (requested_scopes_of scopes) state true = Raise e ->
  let run := login kerliix_client state scopes w in
  run.1 = Raise (Uncaught e) /\
  status run.1 = 500 /\
  PKCE_STORE run.2 = PKCE_STORE w /\
  SESSION_STORE run.2 = SESSION_STORE w.
Proof.
  intros Hauth run. subst run.
  by rewrite (login_get_auth_url_raises kerliix_client state scopes e w Hauth).
Qed.

Lemma login_provider_raises_witness :
  let unreachable_client :=
    {| get_auth_url := fun _ _ _ => Raise (Exception "connection refused");
       exchangeCodeForToken := exchangeCodeForToken failing_client;
       getUserInfo := getUserInfo failing_client;
       revokeToken := revokeToken failing_client |} in
  let run := login unreachable_client "s2" None example_world in
  run.1 = Raise (Uncaught (Exception "connection refused")) /\
  status run.1 = 500 /\
  PKCE_STORE run.2 = PKCE_STORE example_world /\
  SESSION_STORE run.2 = SESSION_STORE example_world.
Proof.
  intros unreachable_client.
  apply (login_provider_raises unreachable_client "s2" None
           (Exception "connection refused") example_world).
  reflexivity.
Defined.

(** X9. A result that has a verifier but no ["url"]: line 100 raises a
    [KeyError] after line 97 has run, so the client gets a 500 while the
    state stays registered with its verifier. *)
Theorem login_missing_url_leaves_record (kerliix_client : KerliixOAuth) (state : string)
    (scopes : option string) (auth : gmap string string) (code_verifier : string)
    (w : World) :
  get_auth_url kerliix_client (requested_scopes_of scopes) state true = Ok auth ->
  as_truthy (py_or (auth !! "codeVerifier") (auth !! "code_verifier")) = Some code_verifier ->
  auth !! "url" = None ->
  let run := login kerliix_client state scopes w in
  run.1 = Raise (Uncaught (Exception "'url'")) /\
  status run.1 = 500 /\
  PKCE_STORE run.2 !! state = Some code_verifier.
Proof.
  intros Hauth Hcv Hurl run. subst run.
  rewrite (login_registers kerliix_client state scopes auth code_verifier w Hauth Hcv).
  rewrite Hurl. cbn [fst snd PKCE_STORE status].
  split; [done|]. split; [done|]. apply lookup_insert_eq.
Qed.

Lemma login_missing_url_leaves_record_witness :
  let urlless_client :=
    {| get_auth_url := fun _ _ _ => Ok {[ "code_verifier" := "v" ]};
       exchangeCodeForToken := exchangeCodeForToken failing_client;
       getUserInfo := getUserInfo failing_client;
       revokeToken := revokeToken failing_client |} in
  let run := login urlless_client "s2" None example_world in
  run.1 = Raise (Uncaught (Exception "'url'")) /\
  status run.1 = 500 /\
  PKCE_STORE run.2 !! "s2" = Some "v".
Proof.
  intros urlless_client.
  apply (login_missing_url_leaves_record urlless_client "s2" None
           {[ "code_verifier" := "v" ]} "v" example_world).
  - reflexivity.
  - reflexivity.
  - reflexivity.
Defined.

(** X10. Which verifier is registered: a non-empty ["codeVerifier"] wins;
    ["code_verifier"] is used only when ["codeVerifier"] is absent or
    empty. *)
Theorem login_verifier_key_precedence (kerliix_client : KerliixOAuth) (state : string)
    (scopes : option string) (auth : gmap string string) (snake : string) (w : World) :
  get_auth_url kerliix_client (requested_scopes_of scopes) state true = Ok auth ->
  auth !! "code_verifier" = Some snake -> snake ≠ "" ->
  PKCE_STORE (login kerliix_client state scopes w).2 !! state =
    match auth !! "codeVerifier" with
    | Some camel => if str_truthy camel then Some camel else Some snake
    | None => Some snake
    end.
Proof.
  intros Hauth Hsnake Hne.
  assert (forall v,
            as_truthy (py_or (auth !! "codeVerifier") (auth !! "code_verifier")) = Some v ->
            PKCE_STORE (login kerliix_client state scopes w).2 !! state = Some v) as Hreg.
  { intros v Hcv.
    rewrite (login_registers kerliix_client state scopes auth v w Hauth Hcv).
    apply lookup_insert_eq. }
  unfold py_or in Hreg. rewrite Hsnake in Hreg.
  destruct (auth !! "codeVerifier") as [camel|]; cbn [truthy] in Hreg.
  - destruct (str_truthy camel) eqn:Hcamel; apply Hreg; cbn [as_truthy].
    + by rewrite Hcamel.
    + by rewrite str_truthy_ne.
  - apply Hreg. cbn [as_truthy]. by rewrite str_truthy_ne.
Qed.

Lemma login_verifier_key_precedence_witness :
  let two_keys_client :=
    {| get_auth_url := fun _ _ _ =>
         Ok {[ "url" := "https://api.kerliix.com/oauth/authorize";
               "codeVerifier" := "camel"; "code_verifier" := "snake" ]};
       exchangeCodeForToken := exchangeCodeForToken failing_client;
       getUserInfo := getUserInfo failing_client;
       revokeToken := revokeToken failing_client |} in
  PKCE_STORE (login two_keys_client "s2" None example_world).2 !! "s2" = Some "camel".
Proof.
  intros two_keys_client.
  etrans.
  - apply (login_verifier_key_precedence two_keys_client "s2" None
             {[ "url" := "https://api.kerliix.com/oauth/authorize";
                "codeVerifier" := "camel"; "code_verifier" := "snake" ]}
             "snake" example_world).
    + reflexivity.
    + reflexivity.
    + discriminate.
  - reflexivity.
Defined.

(** X11. Login followed by the callback for the same state: the code is
    exchanged with exactly the verifier that [login] registered, under
    whatever provider serves the callback, and the reply is decided by
    that exchange alone. *)
Theorem login_then_callback_uses_registered_verifier
    (kerliix_client callback_client : KerliixOAuth) (state : string)
    (scopes : option string) (auth : gmap string string) (code_verifier : string)
    (session_id : string) (request : Request) (code : string) (w : World) :
  get_auth_url kerliix_client (requested_scopes_of scopes) state true = Ok auth ->
  as_truthy (py_or (auth !! "codeVerifier") (auth !! "code_verifier")) = Some code_verifier ->
  query_params request !! "error" = None ->
  query_params request !! "code" = Some code -> code ≠ "" ->
  query_params request !! "state" = Some state -> state ≠ "" ->
  let after_login := (login kerliix_client state scopes w).2 in
  let run := callback callback_client session_id request after_login in
  IDP_CALLS run.2 =
    (IDP_CALLS w ++ [GetAuthUrl (requested_scopes_of scopes) state true;
                     ExchangeCodeForToken code code_verifier])%list /\
  PKCE_STORE run.2 !! state = None /\
  match exchangeCodeForToken callback_client code code_verifier with
  | Ok token_response =>
      status run.1 = 307 /\
      SESSION_STORE run.2 !! session_id = Some {[ "token" := token_response ]}
  | Raise (OAuthError _ _) => status run.1 = 400 /\ SESSION_STORE run.2 = SESSION_STORE w
  | Raise (Exception _) => status run.1 = 500 /\ SESSION_STORE run.2 = SESSION_STORE w
  end.
Proof.
  intros Hauth Hcv Herr Hcode Hcne Hstate Hsne after_login run.
  subst run after_login.
  rewrite (login_registers kerliix_client state scopes auth code_verifier w Hauth Hcv).
  cbn [snd].
  assert (as_truthy (query_params request !! "error") = None) as Herr'
    by (by rewrite Herr).
  assert (as_truthy (query_params request !! "code") = Some code) as Hcode'
    by (rewrite Hcode; by apply as_truthy_ne).
  assert (as_truthy (query_params request !! "state") = Some state) as Hstate'
    by (rewrite Hstate; by apply as_truthy_ne).
  apply as_truthy_Some in Hcv as Hcv'. destruct Hcv' as [_ Hvne].
  destruct (exchangeCodeForToken callback_client code code_verifier) as [t|e] eqn:Hex.
  - rewrite (callback_exchange_ok callback_client session_id request
               code state code_verifier t); try done.
    + cbn [fst snd SESSION_STORE PKCE_STORE IDP_CALLS status].
      rewrite <- app_assoc. split; [done|].
      split; [apply lookup_delete_eq|]. split; [done|]. apply lookup_insert_eq.
    + cbn [PKCE_STORE]. rewrite lookup_insert_eq. by apply as_truthy_ne.
  - rewrite (callback_exchange_failed callback_client session_id request
               code state code_verifier e); try done.
    + cbn [fst snd SESSION_STORE PKCE_STORE IDP_CALLS status].
      rewrite <- app_assoc. split; [done|].
      split; [apply lookup_delete_eq|]. by destruct e.
    + cbn [PKCE_STORE]. rewrite lookup_insert_eq. by apply as_truthy_ne.
Qed.

Lemma login_then_callback_uses_registered_verifier_witness :
  let request := request_of [] [("code", "X"); ("state", "fresh")] in
  let after_login := (login accepting_client "fresh" None initial_world).2 in
  let run := callback accepting_client "n1" request after_login in
  IDP_CALLS run.2 = [GetAuthUrl None "fresh" true; ExchangeCodeForToken "X" "new"] /\
  PKCE_STORE run.2 !! "fresh" = None /\
  status run.1 = 307.
Proof.
  intros request after_login run.
  destruct (login_then_callback_uses_registered_verifier accepting_client accepting_client
              "fresh" None
              {[ "url" := "https://api.kerliix.com/oauth/authorize?state=fresh";
                 "codeVerifier" := "new" ]}
              "new" "n1" request "X" initial_world)
    as (Hcalls & Hgone & Hreply).
  - reflexivity.
  - reflexivity.
  - reflexivity.
  - reflexivity.
  - discriminate.
  - reflexivity.
  - discriminate.
  - split; [exact Hcalls|]. split; [exact Hgone|]. exact (proj1 Hreply).
Defined.

(** ** Further properties of the session-bound handlers *)

Section Json.

Lemma find_key_fmap (l : list (string * string)) (key value : string) :
  NoDup (l.*1) -> (key, value) ∈ l ->
  List.find (fun kv : string * json => bool_decide (kv.1 = key))
    ((fun kv : string * string => (kv.1, JStr kv.2)) <$> l) = Some (key, JStr value).
Proof.
  induction l as [|[k v] l IH]; intros Hnd Hin; [by apply elem_of_nil in Hin|].
  cbn in Hnd |- *. apply NoDup_cons in Hnd as [Hk Hnd].
  apply elem_of_cons in Hin as [[= <- <-] | Hin].
  - by rewrite bool_decide_eq_true_2.
  - rewrite bool_decide_eq_false_2; [by apply IH|].
    intros ->. apply Hk. apply list_elem_of_fmap. by exists (key, value).
Qed.

Lemma find_key_fmap_None (l : list (string * string)) (key : string) :
  key ∉ l.*1 ->
  List.find (fun kv : string * json => bool_decide (kv.1 = key))
    ((fun kv : string * string => (kv.1, JStr kv.2)) <$> l) = None.
Proof.
  induction l as [|[k v] l IH]; intros Hk; [done|].
  cbn in Hk |- *. apply not_elem_of_cons in Hk as [Hne Hk].
  rewrite bool_decide_eq_false_2 by done. by apply IH.
Qed.

(** Reading a key of the serialised dict gives the dict's entry. *)
Lemma json_get_of_dict (d : gmap string string) (key : string) :
  json_get key (json_of_dict d) = JStr <$> d !! key.
Proof.
  unfold json_of_dict. cbn [json_get].
  destruct (d !! key) as [value|] eqn:Hd; cbn.
  - rewrite (find_key_fmap _ key value); [done | apply NoDup_fst_map_to_list |].
    by apply elem_of_map_to_list.
  - rewrite find_key_fmap_None; [done|].
    intros Hin. apply list_elem_of_fmap in Hin as ([k v] & -> & Hin).
    apply elem_of_map_to_list in Hin. cbn in Hd. congruence.
Qed.

End Json.

(** The only way line 165/189 can raise. *)
Lemma access_token_of_raise_inv (token : token_obj) (e : exception) :
  access_token_of token = Raise e ->
  e = Exception "object has no attribute 'get'" /\
  exists attrs, token = TokenObject attrs /\ truthy (attrs !! "access_token") = false.
Proof.
  unfold access_token_of. destruct token as [attrs|items]; cbn [getattr token_get].
  - destruct (truthy (attrs !! "access_token")) eqn:Hattr; [discriminate|].
    intros [= <-]. split; [done|]. by exists attrs.
  - cbn [truthy]. discriminate.
Qed.

Section SessionPaths.
Variable kerliix_client : KerliixOAuth.
Variable request : Request.

(** Line 157 treats a record without ["token"] like a missing one. *)
Lemma me_no_token (session_id : string) (stored : gmap string token_obj) (w : World) :
  as_truthy (_get_session_id request) = Some session_id ->
  SESSION_STORE w !! session_id = Some stored ->
  stored !! "token" = None ->
  me kerliix_client request w =
    (Raise (HTTPException 401 (JStr "No tokens found for session")), w).
Proof.
  intros Hc Hs Ht. unfold me. rewrite Hc.
  unfold bind at 1. unfold SESSION_STORE_get at 1. rewrite Hs.
  rewrite (dict_without_key stored "token" Ht). by rewrite orb_true_r.
Qed.

(** Line 165 is inside the [try]: a failing read is the 500 of line 170. *)
Lemma me_access_token_raises (session_id : string) (stored : gmap string token_obj)
    (token : token_obj) (e : exception) (w : World) :
  as_truthy (_get_session_id request) = Some session_id ->
  SESSION_STORE w !! session_id = Some stored ->
  stored !! "token" = Some token ->
  access_token_of token = Raise e ->
  me kerliix_client request w =
    (Raise (HTTPException 500 (JStr ("Failed to fetch user info: " ++ str e))), w).
Proof.
  intros Hc Hs Ht Ha. unfold me. rewrite Hc.
  unfold bind at 1. unfold SESSION_STORE_get at 1. rewrite Hs.
  destruct (dict_with_key_truthy stored "token" token Ht) as [-> ->].
  cbn [negb orb].
  unfold bind, try_except, getitem, ret, eval, raise. rewrite Ht, Ha.
  by destruct (access_token_of_raise_inv token e Ha) as [-> _].
Qed.

Lemma revoke_unknown (session_id : string) (w : World) :
  as_truthy (_get_session_id request) = Some session_id ->
  SESSION_STORE w !! session_id = None ->
  revoke kerliix_client request w =
    (Raise (HTTPException 400 (JStr "No token to revoke")), w).
Proof.
  intros Hc Hs. unfold revoke. rewrite Hc.
  unfold bind, SESSION_STORE_get. by rewrite Hs.
Qed.

(** Line 223: an empty record is as good as none. *)
Lemma tokens_empty_record (session_id : string) (w : World) :
  as_truthy (_get_session_id request) = Some session_id ->
  SESSION_STORE w !! session_id = Some ∅ ->
  tokens request w = (Raise (HTTPException 404 (JStr "No token for session")), w).
Proof.
  intros Hc Hs. unfold tokens. rewrite Hc.
  unfold bind, SESSION_STORE_get. by rewrite Hs.
Qed.

Lemma tokens_found (session_id : string) (stored : gmap string token_obj)
    (token : token_obj) (w : World) :
  as_truthy (_get_session_id request) = Some session_id ->
  SESSION_STORE w !! session_id = Some stored ->
  stored !! "token" = Some token ->
  tokens request w = (Ok (JSONResponse (json_of_dict (token_dict_of token)) []), w).
Proof.
  intros Hc Hs Ht. unfold tokens. rewrite Hc.
  unfold bind at 1. unfold SESSION_STORE_get at 1. rewrite Hs.
  destruct (dict_with_key_truthy stored "token" token Ht) as [-> _].
  cbn [negb]. unfold bind, propagate, getitem, ret. by rewrite Ht.
Qed.

(** Line 226 on a non-empty record without ["token"]. *)
Lemma tokens_key_error (session_id : string) (stored : gmap string token_obj) (w : World) :
  as_truthy (_get_session_id request) = Some session_id ->
  SESSION_STORE w !! session_id = Some stored ->
  stored ≠ ∅ ->
  stored !! "token" = None ->
  tokens request w = (Raise (Uncaught (Exception "'token'")), w).
Proof.
  intros Hc Hs Hne Ht. unfold tokens. rewrite Hc.
  unfold bind at 1. unfold SESSION_STORE_get at 1. rewrite Hs.
  cbn [dict_truthy]. rewrite bool_decide_eq_false_2.
  - cbn [negb]. unfold bind, propagate, getitem, raise. by rewrite Ht.
  - intros Hsz. by apply map_size_empty_iff in Hsz.
Qed.

End SessionPaths.

(** Splits a goal about [me kc req w] along the five ways it can end. *)
Ltac me_cases kc req w :=
  destruct (as_truthy (_get_session_id req)) as [sid|] eqn:Hc;
  [ destruct (SESSION_STORE w !! sid) as [stored|] eqn:Hs;
    [ destruct (stored !! "token") as [token|] eqn:Ht;
      [ destruct (access_token_of token) as [at_|e] eqn:Ha;
        [ rewrite (me_provider_call kc req sid stored token at_ w Hc Hs Ht Ha)
        | rewrite (me_access_token_raises kc req sid stored token e w Hc Hs Ht Ha) ]
      | rewrite (me_no_token kc req sid stored w Hc Hs Ht) ]
    | rewrite (me_unknown_session kc req sid w Hc Hs) ]
  | rewrite (me_no_cookie kc req w Hc) ].

(** Splits a goal about [revoke kc req w] along the five ways it can end. *)
Ltac revoke_cases kc req w :=
  destruct (as_truthy (_get_session_id req)) as [sid|] eqn:Hc;
  [ destruct (SESSION_STORE w !! sid) as [stored|] eqn:Hs;
    [ destruct (stored !! "token") as [token|] eqn:Ht;
      [ destruct (access_token_of token) as [at_|e] eqn:Ha;
        [ rewrite (revoke_provider_call kc req sid stored token at_ w Hc Hs Ht Ha)
        | rewrite (revoke_access_token_raises kc req sid stored token e w Hc Hs Ht Ha) ]
      | rewrite (revoke_no_token kc req sid stored w Hc Hs Ht) ]
    | rewrite (revoke_unknown kc req sid w Hc Hs) ]
  | rewrite (revoke_no_cookie kc req w Hc) ].

(** X12. [/me] is read-only: on every path both stores are what they
    were, and the provider is contacted at most once, by a userinfo call
    carrying the access token read from the session's token. *)
Theorem me_read_only (kerliix_client : KerliixOAuth) (request : Request) (w : World) :
  SESSION_STORE (me kerliix_client request w).2 = SESSION_STORE w /\
  PKCE_STORE (me kerliix_client request w).2 = PKCE_STORE w /\
  (IDP_CALLS (me kerliix_client request w).2 = IDP_CALLS w \/
   exists session_id stored token access_token,
     _get_session_id request = Some session_id /\
     SESSION_STORE w !! session_id = Some stored /\
     stored !! "token" = Some token /\
     access_token_of token = Ok access_token /\
     IDP_CALLS (me kerliix_client request w).2 =
       (IDP_CALLS w ++ [GetUserInfo access_token])%list).
Proof.
  me_cases kerliix_client request w; cbn [fst snd SESSION_STORE PKCE_STORE IDP_CALLS];
    (split; [done|]); (split; [done|]); try (by left).
  right. exists sid, stored, token, at_.
  by apply as_truthy_Some in Hc as [-> _].
Qed.

(** X13. [/tokens] never changes the world and never contacts the
    provider, whatever the request. *)
Theorem tokens_read_only (request : Request) (w : World) :
  (tokens request w).2 = w.
Proof.
  destruct (as_truthy (_get_session_id request)) as [sid|] eqn:Hc;
    [|by rewrite tokens_no_cookie].
  destruct (SESSION_STORE w !! sid) as [stored|] eqn:Hs;
    [|by rewrite (tokens_unknown_session request sid)].
  destruct (stored !! "token") as [token|] eqn:Ht;
    [by rewrite (tokens_found request sid stored token)|].
  destruct (decide (stored = ∅)) as [-> | Hne].
  - by rewrite (tokens_empty_record request sid).
  - by rewrite (tokens_key_error request sid stored).
Qed.

(** X14. For a session that holds a token, [/tokens] answers 200 with the
    token's fields verbatim: for an object token the body has exactly its
    attributes (the [__dict__]), for a dict token exactly its items, each
    key with its value and no other key. *)
Theorem tokens_returns_token_material (request : Request) (session_id : string)
    (stored : gmap string token_obj) (token : token_obj) (w : World) :
  _get_session_id request = Some session_id -> session_id ≠ "" ->
  SESSION_STORE w !! session_id = Some stored ->
  stored !! "token" = Some token ->
  exists content,
    (tokens request w).1 = Ok (JSONResponse content []) /\
    status (tokens request w).1 = 200 /\
    forall key,
      json_get key content =
        match token with
        | TokenObject attrs => JStr <$> attrs !! key
        | TokenDict items => JStr <$> items !! key
        end.
Proof.
  intros Hc Hne Hs Ht.
  rewrite (tokens_found request session_id stored token w);
    [| rewrite Hc; by apply as_truthy_ne | done..].
  eexists. split; [reflexivity|]. split; [reflexivity|].
  intros key. rewrite json_get_of_dict. by destruct token.
Qed.

Lemma tokens_returns_token_material_witness :
  let request := request_of [("session_id", "sid")] [] in
  exists content,
    (tokens request example_world).1 = Ok (JSONResponse content []) /\
    status (tokens request example_world).1 = 200 /\
    json_get "access_token" content = Some (JStr "at") /\
    json_get "refresh_token" content = None.
Proof.
  intros request.
  destruct (tokens_returns_token_material request "sid"
              {[ "token" := TokenDict {[ "access_token" := "at" ]} ]}
              (TokenDict {[ "access_token" := "at" ]}) example_world)
    as (content & Hreply & Hstatus & Hbody).
  - reflexivity.
  - discriminate.
  - reflexivity.
  - reflexivity.
  - exists content. split; [exact Hreply|]. split; [exact Hstatus|].
    split; [by rewrite Hbody | by rewrite Hbody].
Defined.

(** X15. A non-empty session record without a ["token"] entry is answered
    differently by the three handlers: [/me] says 401, [/revoke] says 400,
    and [/tokens] lets the [KeyError] of line 226 escape as a 500.  None of
    them changes the record. *)
Theorem record_without_token_three_answers (kerliix_client : KerliixOAuth)
    (request : Request) (session_id : string) (stored : gmap string token_obj)
    (w : World) :
  _get_session_id request = Some session_id -> session_id ≠ "" ->
  SESSION_STORE w !! session_id = Some stored ->
  stored ≠ ∅ ->
  stored !! "token" = None ->
  status (me kerliix_client request w).1 = 401 /\
  status (revoke kerliix_client request w).1 = 400 /\
  (tokens request w).1 = Raise (Uncaught (Exception "'token'")) /\
  status (tokens request w).1 = 500 /\
  (me kerliix_client request w).2 = w /\
  (revoke kerliix_client request w).2 = w /\
  (tokens request w).2 = w.
Proof.
  intros Hc Hne Hs Hnonempty Ht.
  assert (as_truthy (_get_session_id request) = Some session_id) as Hc'
    by (rewrite Hc; by apply as_truthy_ne).
  rewrite (me_no_token kerliix_client request session_id stored w Hc' Hs Ht).
  rewrite (revoke_no_token kerliix_client request session_id stored w Hc' Hs Ht).
  by rewrite (tokens_key_error request session_id stored w Hc' Hs Hnonempty Ht).
Qed.

Lemma record_without_token_three_answers_witness :
  let request := request_of [("session_id", "odd")] [] in
  let w := {| SESSION_STORE := {[ "odd" := {[ "created_at" := TokenDict ∅ ]} ]};
              PKCE_STORE := ∅; IDP_CALLS := [] |} in
  status (me failing_client request w).1 = 401 /\
  status (revoke failing_client request w).1 = 400 /\
  status (tokens request w).1 = 500.
Proof.
  intros request w.
  destruct (record_without_token_three_answers failing_client request "odd"
              {[ "created_at" := TokenDict ∅ ]} w)
    as (Hme & Hrevoke & _ & Htokens & _).
  - reflexivity.
  - discriminate.
  - reflexivity.
  - intros Hempty. apply (f_equal (fun m => m !! "created_at")) in Hempty.
    vm_compute in Hempty. discriminate.
  - reflexivity.
  - split; [exact Hme|]. split; [exact Hrevoke | exact Htokens].
Defined.

(** X16. [/me] on a live session whose provider answers: the reply is a
    200 carrying the provider's profile unchanged and no cookie header,
    and the provider was given the access token read from the session. *)
Theorem me_returns_profile (kerliix_client : KerliixOAuth) (request : Request)
    (session_id : string) (stored : gmap string token_obj) (token : token_obj)
    (access_token : option string) (user_info : json) (w : World) :
  _get_session_id request = Some session_id -> session_id ≠ "" ->
  SESSION_STORE w !! session_id = Some stored ->
  stored !! "token" = Some token ->
  access_token_of token = Ok access_token ->
  getUserInfo kerliix_client access_token = Ok user_info ->
  let run := me kerliix_client request w in
  run.1 = Ok (JSONResponse user_info []) /\
  status run.1 = 200 /\
  IDP_CALLS run.2 = (IDP_CALLS w ++ [GetUserInfo access_token])%list.
Proof.
  intros Hc Hne Hs Ht Ha Hui run. subst run.
  rewrite (me_provider_call kerliix_client request session_id stored token
             access_token w); [| rewrite Hc; by apply as_truthy_ne | done..].
  by rewrite Hui.
Qed.

Lemma me_returns_profile_witness :
  let request := request_of [("session_id", "sid")] [] in
  let run := me accepting_client request example_world in
  run.1 = Ok (JSONResponse (JDict [("sub", JStr "u1")]) []) /\
  status run.1 = 200 /\
  IDP_CALLS run.2 = [GetUserInfo (Some "at")].
Proof.
  intros request.
  apply (me_returns_profile accepting_client request "sid"
           {[ "token" := TokenDict {[ "access_token" := "at" ]} ]}
           (TokenDict {[ "access_token" := "at" ]}) (Some "at")
           (JDict [("sub", JStr "u1")]) example_world).
  - reflexivity.
  - discriminate.
  - reflexivity.
  - reflexivity.
  - reflexivity.
  - reflexivity.
Defined.

(** X17. Any failure of the userinfo call that is not an [OAuthError]
    becomes a 500 whose detail is ["Failed to fetch user info: "] followed
    by the exception's text; the session is kept. *)
Theorem me_unexpected_failure (kerliix_client : KerliixOAuth) (request : Request)
    (session_id : string) (stored : gmap string token_obj) (token : token_obj)
    (access_token : option string) (message : string) (w : World) :
  _get_session_id request = Some session_id -> session_id ≠ "" ->
  SESSION_STORE w !! session_id = Some stored ->
  stored !! "token" = Some token ->
  access_token_of token = Ok access_token ->
  getUserInfo kerliix_client access_token = Raise (Exception message) ->
  let run := me kerliix_client request w in
  run.1 = Raise (HTTPException 500 (JStr ("Failed to fetch user info: " ++ message))) /\
  SESSION_STORE run.2 !! session_id = Some stored.
Proof.
  intros Hc Hne Hs Ht Ha Hui run. subst run.
  rewrite (me_provider_call kerliix_client request session_id stored token
             access_token w); [| rewrite Hc; by apply as_truthy_ne | done..].
  by rewrite Hui.
Qed.

Lemma me_unexpected_failure_witness :
  let timeout_client :=
    {| get_auth_url := get_auth_url failing_client;
       exchangeCodeForToken := exchangeCodeForToken failing_client;
       getUserInfo := fun _ => Raise (Exception "timed out");
       revokeToken := revokeToken failing_client |} in
  let request := request_of [("session_id", "sid")] [] in
  let run := me timeout_client request example_world in
  run.1 = Raise (HTTPException 500 (JStr "Failed to fetch user info: timed out")) /\
  SESSION_STORE run.2 !! "sid" =
    Some {[ "token" := TokenDict {[ "access_token" := "at" ]} ]}.
Proof.
  intros timeout_client request.
  apply (me_unexpected_failure timeout_client request "sid"
           {[ "token" := TokenDict {[ "access_token" := "at" ]} ]}
           (TokenDict {[ "access_token" := "at" ]}) (Some "at") "timed out" example_world).
  - reflexivity.
  - discriminate.
  - reflexivity.
  - reflexivity.
  - reflexivity.
  - reflexivity.
Defined.

(** X18. Reading the access token fails exactly for an object token whose
    [access_token] attribute is missing or empty (the fallback [.get]
    does not exist on an object); a dict token always yields its
    ["access_token"] item, which may be [None]. *)
Theorem access_token_read_fails_iff (token : token_obj) :
  (exists e, access_token_of token = Raise e) <->
  (exists attrs, token = TokenObject attrs /\ truthy (attrs !! "access_token") = false).
Proof.
  split.
  - intros [e He]. by destruct (access_token_of_raise_inv token e He) as [_ H].
  - intros (attrs & -> & Hattr). by apply access_token_of_object_raises.
Qed.

(** X19. With a token whose access token cannot be read, the two handlers
    differ: [/me] reads it inside its [try] and answers with its own 500,
    [/revoke] reads it before its [try], so the exception escapes, the
    session is not removed and no [delete_cookie] is sent.  Neither
    contacts the provider. *)
Theorem unreadable_access_token (kerliix_client : KerliixOAuth) (request : Request)
    (session_id : string) (stored : gmap string token_obj) (token : token_obj)
    (e : exception) (w : World) :
  _get_session_id request = Some session_id -> session_id ≠ "" ->
  SESSION_STORE w !! session_id = Some stored ->
  stored !! "token" = Some token ->
  access_token_of token = Raise e ->
  (me kerliix_client request w).1 =
    Raise (HTTPException 500 (JStr ("Failed to fetch user info: " ++ str e))) /\
  (revoke kerliix_client request w).1 = Raise (Uncaught e) /\
  status (revoke kerliix_client request w).1 = 500 /\
  clears_session_cookie (revoke kerliix_client request w).1 = false /\
  (me kerliix_client request w).2 = w /\
  (revoke kerliix_client request w).2 = w.
Proof.
  intros Hc Hne Hs Ht Ha.
  assert (as_truthy (_get_session_id request) = Some session_id) as Hc'
    by (rewrite Hc; by apply as_truthy_ne).
  rewrite (me_access_token_raises kerliix_client request session_id stored token e w
             Hc' Hs Ht Ha).
  by rewrite (revoke_access_token_raises kerliix_client request session_id stored token
                e w Hc' Hs Ht Ha).
Qed.

Lemma unreadable_access_token_witness :
  let request := request_of [("session_id", "sid")] [] in
  let w := {| SESSION_STORE := {[ "sid" := {[ "token" := TokenObject ∅ ]} ]};
              PKCE_STORE := ∅; IDP_CALLS := [] |} in
  status (me accepting_client request w).1 = 500 /\
  status (revoke accepting_client request w).1 = 500 /\
  (revoke accepting_client request w).2 = w.
Proof.
  intros request w.
  destruct (unreadable_access_token accepting_client request "sid"
              {[ "token" := TokenObject ∅ ]} (TokenObject ∅)
              (Exception "object has no attribute 'get'") w)
    as (Hme & _ & Hrevoke & _ & _ & Hkept).
  - reflexivity.
  - discriminate.
  - reflexivity.
  - reflexivity.
  - reflexivity.
  - split; [by rewrite Hme|]. split; [exact Hrevoke | exact Hkept].
Defined.

(** X20. [/revoke] with a cookie naming a session that is not in the
    store answers 400 ("No token to revoke"), not 401; nothing changes
    and the cookie is not deleted. *)
Theorem revoke_unknown_session (kerliix_client : KerliixOAuth) (request : Request)
    (session_id : string) (w : World) :
  _get_session_id request = Some session_id -> session_id ≠ "" ->
  SESSION_STORE w !! session_id = None ->
  let run := revoke kerliix_client request w in
  run.1 = Raise (HTTPException 400 (JStr "No token to revoke")) /\
  clears_session_cookie run.1 = false /\
  run.2 = w.
Proof.
  intros Hc Hne Hs run. subst run.
  rewrite (revoke_unknown kerliix_client request session_id w); [done| |done].
  rewrite Hc. by apply as_truthy_ne.
Qed.

Lemma revoke_unknown_session_witness :
  let request := request_of [("session_id", "ghost")] [] in
  let run := revoke accepting_client request example_world in
  run.1 = Raise (HTTPException 400 (JStr "No token to revoke")) /\
  clears_session_cookie run.1 = false /\
  run.2 = example_world.
Proof.
  intros request.
  apply (revoke_unknown_session accepting_client request "ghost" example_world).
  - reflexivity.
  - discriminate.
  - reflexivity.
Defined.

(** X21. On every path [/revoke] leaves [PKCE_STORE] alone and can remove
    no session other than the one named by the cookie; it contacts the
    provider at most once, with a revoke call. *)
Theorem revoke_frame (kerliix_client : KerliixOAuth) (request : Request) (w : World) :
  PKCE_STORE (revoke kerliix_client request w).2 = PKCE_STORE w /\
  (forall other, _get_session_id request ≠ Some other ->
     SESSION_STORE (revoke kerliix_client request w).2 !! other =
       SESSION_STORE w !! other) /\
  (IDP_CALLS (revoke kerliix_client request w).2 = IDP_CALLS w \/
   exists access_token,
     IDP_CALLS (revoke kerliix_client request w).2 =
       (IDP_CALLS w ++ [RevokeToken access_token])%list).
Proof.
  revoke_cases kerliix_client request w;
    cbn [fst snd SESSION_STORE PKCE_STORE IDP_CALLS];
    (split; [done|]); (split; [|try (by left)]); try done.
  - intros other Hother. apply lookup_delete_ne.
    apply as_truthy_Some in Hc as [Hc _]. congruence.
  - right. by exists at_.
Qed.

(** X22. After a revoke that reached the provider, the old cookie is
    worthless whatever the provider said: [/me] answers 401, [/tokens]
    404 and a second [/revoke] 400 without contacting the provider
    again. *)
Theorem after_revoke_cookie_is_dead (kerliix_client later_client : KerliixOAuth)
    (request : Request) (session_id : string) (stored : gmap string token_obj)
    (token : token_obj) (access_token : option string) (w : World) :
  _get_session_id request = Some session_id -> session_id ≠ "" ->
  SESSION_STORE w !! session_id = Some stored ->
  stored !! "token" = Some token ->
  access_token_of token = Ok access_token ->
  let after := (revoke kerliix_client request w).2 in
  status (me later_client request after).1 = 401 /\
  status (tokens request after).1 = 404 /\
  status (revoke later_client request after).1 = 400 /\
  (revoke later_client request after).2 = after.
Proof.
  intros Hc Hne Hs Ht Ha after.
  assert (as_truthy (_get_session_id request) = Some session_id) as Hc'
    by (rewrite Hc; by apply as_truthy_ne).
  assert (SESSION_STORE after !! session_id = None) as Hgone.
  { subst after.
    rewrite (revoke_provider_call kerliix_client request session_id stored token
               access_token w Hc' Hs Ht Ha).
    apply lookup_delete_eq. }
  rewrite (me_unknown_session later_client request session_id after Hc' Hgone).
  rewrite (tokens_unknown_session request session_id after Hc' Hgone).
  by rewrite (revoke_unknown later_client request session_id after Hc' Hgone).
Qed.

Lemma after_revoke_cookie_is_dead_witness :
  let request := request_of [("session_id", "sid")] [] in
  let after := (revoke failing_client request example_world).2 in
  status (me accepting_client request after).1 = 401 /\
  status (tokens request after).1 = 404 /\
  status (revoke accepting_client request after).1 = 400 /\
  (revoke accepting_client request after).2 = after.
Proof.
  intros request.
  apply (after_revoke_cookie_is_dead failing_client accepting_client request "sid"
           {[ "token" := TokenDict {[ "access_token" := "at" ]} ]}
           (TokenDict {[ "access_token" := "at" ]}) (Some "at") example_world).
  - reflexivity.
  - discriminate.
  - reflexivity.
  - reflexivity.
  - reflexivity.
Defined.

(** ** The application over a history of requests *)

(** Splits a goal about [tokens req w] along the five ways it can end. *)
Ltac tokens_cases req w :=
  destruct (as_truthy (_get_session_id req)) as [sid|] eqn:Hc;
  [ destruct (SESSION_STORE w !! sid) as [stored|] eqn:Hs;
    [ destruct (stored !! "token") as [token|] eqn:Ht;
      [ rewrite (tokens_found req sid stored token w Hc Hs Ht)
      | destruct (decide (stored = ∅)) as [Hempty | Hnonempty];
        [ subst stored; rewrite (tokens_empty_record req sid w Hc Hs)
        | rewrite (tokens_key_error req sid stored w Hc Hs Hnonempty Ht) ] ]
    | rewrite (tokens_unknown_session req sid w Hc Hs) ]
  | rewrite (tokens_no_cookie req w Hc) ].

Section Application.

(** Where a session record found after a request comes from. *)
Lemma handle_session_origin (i : invocation) (w : World) (session_id : string)
    (record : gmap string token_obj) :
  SESSION_STORE (handle i w).2 !! session_id = Some record ->
  SESSION_STORE w !! session_id = Some record \/
  exists kerliix_client request token_response,
    i = Callback kerliix_client session_id request /\
    record = {[ "token" := token_response ]} /\
    (handle i w).1 = Ok (RedirectResponse "http://localhost:5176/?logged_in=1"
                           [SetCookie "session_id" session_id true false "lax"]).
Proof.
  destruct i as [|kc state scopes|kc sid' req|kc req|kc req|req]; cbn [handle].
  - by left.
  - login_cases kc state scopes w; cbn [snd SESSION_STORE]; by left.
  - callback_cases kc sid' req w; cbn [fst snd SESSION_STORE]; try (by left).
    destruct (decide (sid' = session_id)) as [-> | Hne].
    + rewrite lookup_insert_eq. intros [= <-]. right. by exists kc, req, t.
    + rewrite lookup_insert_ne by done. by left.
  - me_cases kc req w; cbn [snd SESSION_STORE]; by left.
  - revoke_cases kc req w; cbn [snd SESSION_STORE]; try (by left).
    intros Hl. apply lookup_delete_Some in Hl as [_ Hl]. by left.
  - tokens_cases req w; cbn [snd]; by left.
Qed.

(** Who can make a session disappear. *)
Lemma handle_session_removal (i : invocation) (w : World) (session_id : string) :
  is_Some (SESSION_STORE w !! session_id) ->
  SESSION_STORE (handle i w).2 !! session_id = None ->
  exists kerliix_client request,
    i = Revoke kerliix_client request /\
    _get_session_id request = Some session_id /\
    clears_session_cookie (handle i w).1 = true.
Proof.
  intros [stored0 Hbefore].
  destruct i as [|kc state scopes|kc sid' req|kc req|kc req|req]; cbn [handle].
  - cbn. congruence.
  - login_cases kc state scopes w; cbn [snd SESSION_STORE]; congruence.
  - callback_cases kc sid' req w; cbn [fst snd SESSION_STORE]; try congruence.
    destruct (decide (sid' = session_id)) as [-> | Hne].
    + by rewrite lookup_insert_eq.
    + rewrite lookup_insert_ne by done. congruence.
  - me_cases kc req w; cbn [snd SESSION_STORE]; congruence.
  - revoke_cases kc req w; cbn [fst snd SESSION_STORE]; try congruence.
    intros Hgone. apply lookup_delete_None in Hgone as [-> | Hgone]; [|congruence].
    exists kc, req. apply as_truthy_Some in Hc as [-> _]. done.
  - tokens_cases req w; cbn [snd]; congruence.
Qed.

(** Where a pending login found after a request comes from. *)
Lemma handle_pending_origin (i : invocation) (w : World) (pending code_verifier : string) :
  PKCE_STORE (handle i w).2 !! pending = Some code_verifier ->
  PKCE_STORE w !! pending = Some code_verifier \/
  (code_verifier ≠ "" /\
   exists kerliix_client scopes, i = Login kerliix_client pending scopes).
Proof.
  destruct i as [|kc state' scopes|kc sid' req|kc req|kc req|req]; cbn [handle].
  - by left.
  - login_cases kc state' scopes w; cbn [snd PKCE_STORE]; try (by left).
    destruct (decide (state' = pending)) as [-> | Hne].
    + rewrite lookup_insert_eq. intros [= <-]. right.
      apply as_truthy_Some in Hcv as [_ Hcv]. split; [done|]. by exists kc, scopes.
    + rewrite lookup_insert_ne by done. by left.
  - callback_cases kc sid' req w; cbn [snd PKCE_STORE]; try (by left);
      intros Hl; apply lookup_delete_Some in Hl as [_ Hl]; by left.
  - me_cases kc req w; cbn [snd PKCE_STORE]; by left.
  - revoke_cases kc req w; cbn [snd PKCE_STORE]; by left.
  - tokens_cases req w; cbn [snd]; by left.
Qed.

Lemma as_truthy_None_falsy (x : option string) : as_truthy x = None -> truthy x = false.
Proof. destruct x as [s|]; cbn; [|done]. by destruct (str_truthy s). Qed.

(** Who can make a pending login disappear. *)
Lemma handle_pending_removal (i : invocation) (w : World) (pending : string) :
  is_Some (PKCE_STORE w !! pending) ->
  PKCE_STORE (handle i w).2 !! pending = None ->
  exists kerliix_client session_id request,
    i = Callback kerliix_client session_id request /\
    query_params request !! "state" = Some pending /\
    truthy (query_params request !! "error") = false.
Proof.
  intros [cv0 Hbefore].
  destruct i as [|kc state' scopes|kc sid' req|kc req|kc req|req]; cbn [handle].
  - cbn. congruence.
  - login_cases kc state' scopes w; cbn [snd PKCE_STORE]; try congruence.
    destruct (decide (state' = pending)) as [-> | Hne].
    + by rewrite lookup_insert_eq.
    + rewrite lookup_insert_ne by done. congruence.
  - callback_cases kc sid' req w; cbn [snd PKCE_STORE]; try congruence;
      intros Hgone; apply lookup_delete_None in Hgone as [-> | Hgone];
      try congruence;
      apply as_truthy_Some in Hstate as [Hstate _];
      apply as_truthy_None_falsy in Herr;
      by exists kc, sid', req.
  - me_cases kc req w; cbn [snd PKCE_STORE]; congruence.
  - revoke_cases kc req w; cbn [snd PKCE_STORE]; congruence.
  - tokens_cases req w; cbn [snd]; congruence.
Qed.

Lemma serve_snoc (history : list invocation) (i : invocation) (w : World) :
  serve (history ++ [i]) w = (handle i (serve history w)).2.
Proof. unfold serve. by rewrite foldl_app. Qed.

Lemma serve_sessions_hold_tokens (history : list invocation) (w : World) :
  sessions_hold_tokens w -> sessions_hold_tokens (serve history w).
Proof.
  intros Hw. induction history as [|i history IH] using rev_ind; [exact Hw|].
  rewrite serve_snoc. intros session_id stored Hl.
  apply handle_session_origin in Hl as [Hl | (kc & req & t & _ & -> & _)].
  - by apply (IH session_id).
  - exists t. apply lookup_singleton_eq.
Qed.

Lemma serve_verifiers_nonempty (history : list invocation) (w : World) :
  verifiers_nonempty w -> verifiers_nonempty (serve history w).
Proof.
  intros Hw. induction history as [|i history IH] using rev_ind; [exact Hw|].
  rewrite serve_snoc. intros state cv Hl.
  apply handle_pending_origin in Hl as [Hl | [Hne _]]; [|done].
  by apply (IH state).
Qed.

Lemma initial_sessions_hold_tokens : sessions_hold_tokens initial_world.
Proof. intros session_id stored Hl. cbn in Hl. by rewrite lookup_empty in Hl. Qed.

Lemma initial_verifiers_nonempty : verifiers_nonempty initial_world.
Proof. intros state cv Hl. cbn in Hl. by rewrite lookup_empty in Hl. Qed.

End Application.

Lemma serve_session_shape (history : list invocation) (w : World) :
  (forall session_id record, SESSION_STORE w !! session_id = Some record ->
     exists token_response, record = {[ "token" := token_response ]}) ->
  forall session_id record,
    SESSION_STORE (serve history w) !! session_id = Some record ->
    exists token_response, record = {[ "token" := token_response ]}.
Proof.
  intros Hw. induction history as [|i history IH] using rev_ind; [exact Hw|].
  rewrite serve_snoc. intros session_id record Hl.
  apply handle_session_origin in Hl as [Hl | (kc & req & t & _ & -> & _)].
  - by apply (IH session_id).
  - by exists t.
Qed.

(** X23. Starting from the empty stores, whatever requests are served and
    however the provider behaves, every session record is exactly
    [{"token": token_response}] for some token. *)
Theorem reachable_session_shape (history : list invocation) (session_id : string)
    (record : gmap string token_obj) :
  SESSION_STORE (serve history initial_world) !! session_id = Some record ->
  exists token_response, record = {[ "token" := token_response ]}.
Proof.
  apply serve_session_shape. intros sid rec Hl. cbn in Hl.
  by rewrite lookup_empty in Hl.
Qed.

Lemma reachable_session_shape_witness :
  let history :=
    [Login accepting_client "s1" None;
     Callback accepting_client "n1" (request_of [] [("code", "X"); ("state", "s1")])] in
  exists token_response,
    ({[ "token" := TokenObject {[ "access_token" := "at"; "token_type" := "Bearer" ]} ]}
       : gmap string token_obj) = {[ "token" := token_response ]}.
Proof.
  intros history.
  apply (reachable_session_shape history "n1").
  reflexivity.
Defined.

(** X24. Starting from the empty stores, every pending login holds a
    non-empty verifier: line 92 keeps empty ones out. *)
Theorem reachable_verifiers_nonempty (history : list invocation)
    (pending code_verifier : string) :
  PKCE_STORE (serve history initial_world) !! pending = Some code_verifier ->
  code_verifier ≠ "".
Proof.
  apply (serve_verifiers_nonempty history initial_world initial_verifiers_nonempty).
Qed.

Lemma reachable_verifiers_nonempty_witness : "new" ≠ "".
Proof.
  apply (reachable_verifiers_nonempty [Login accepting_client "s1" None] "s1" "new").
  reflexivity.
Defined.

(** X25. Sessions are created by the callback only: if a request makes a
    session id appear in [SESSION_STORE], the request was a callback that
    drew this id and answered with the redirect carrying it as cookie. *)
Theorem session_created_only_by_callback (i : invocation) (w : World)
    (session_id : string) :
  SESSION_STORE w !! session_id = None ->
  is_Some (SESSION_STORE (handle i w).2 !! session_id) ->
  exists kerliix_client request,
    i = Callback kerliix_client session_id request /\
    (handle i w).1 = Ok (RedirectResponse "http://localhost:5176/?logged_in=1"
                           [SetCookie "session_id" session_id true false "lax"]).
Proof.
  intros Hbefore [record Hafter].
  apply handle_session_origin in Hafter as [Hold | (kc & req & t & Hi & _ & Hreply)].
  - congruence.
  - by exists kc, req.
Qed.

Lemma session_created_only_by_callback_witness :
  let i := Callback accepting_client "n1" (request_of [] [("code", "X"); ("state", "s")]) in
  exists kerliix_client request,
    i = Callback kerliix_client "n1" request /\
    (handle i example_world).1 =
      Ok (RedirectResponse "http://localhost:5176/?logged_in=1"
            [SetCookie "session_id" "n1" true false "lax"]).
Proof.
  intros i.
  apply (session_created_only_by_callback i example_world "n1").
  - reflexivity.
  - eexists. vm_compute. reflexivity.
Defined.

(** X26. Sessions are removed by revoke only: if a request makes a
    session disappear, it was a [/revoke] whose cookie named that session,
    and its reply deletes the cookie. *)
Theorem session_removed_only_by_revoke (i : invocation) (w : World)
    (session_id : string) :
  is_Some (SESSION_STORE w !! session_id) ->
  SESSION_STORE (handle i w).2 !! session_id = None ->
  exists kerliix_client request,
    i = Revoke kerliix_client request /\
    _get_session_id request = Some session_id /\
    clears_session_cookie (handle i w).1 = true.
Proof. apply handle_session_removal. Qed.

Lemma session_removed_only_by_revoke_witness :
  let i := Revoke failing_client (request_of [("session_id", "sid")] []) in
  exists kerliix_client request,
    i = Revoke kerliix_client request /\
    _get_session_id request = Some "sid" /\
    clears_session_cookie (handle i example_world).1 = true.
Proof.
  intros i.
  apply (session_removed_only_by_revoke i example_world "sid").
  - eexists. vm_compute. reflexivity.
  - reflexivity.
Defined.

(** X27. Pending logins are created by [/login] only, under the state it
    drew. *)
Theorem pending_created_only_by_login (i : invocation) (w : World) (pending : string) :
  PKCE_STORE w !! pending = None ->
  is_Some (PKCE_STORE (handle i w).2 !! pending) ->
  exists kerliix_client scopes, i = Login kerliix_client pending scopes.
Proof.
  intros Hbefore [cv Hafter].
  apply handle_pending_origin in Hafter as [Hold | [_ Hlogin]]; [congruence | done].
Qed.

Lemma pending_created_only_by_login_witness :
  let i := Login accepting_client "s2" None in
  exists kerliix_client scopes, i = Login kerliix_client "s2" scopes.
Proof.
  intros i.
  apply (pending_created_only_by_login i example_world "s2").
  - reflexivity.
  - eexists. vm_compute. reflexivity.
Defined.

(** X28. Pending logins are removed by the callback only: if a request
    makes a state disappear from [PKCE_STORE], it was a callback that
    presented this state and carried no non-empty [error]. *)
Theorem pending_removed_only_by_callback (i : invocation) (w : World) (pending : string) :
  is_Some (PKCE_STORE w !! pending) ->
  PKCE_STORE (handle i w).2 !! pending = None ->
  exists kerliix_client session_id request,
    i = Callback kerliix_client session_id request /\
    query_params request !! "state" = Some pending /\
    truthy (query_params request !! "error") = false.
Proof. apply handle_pending_removal. Qed.

Lemma pending_removed_only_by_callback_witness :
  let i := Callback failing_client "n" (request_of [] [("code", "c"); ("state", "s")]) in
  exists kerliix_client session_id request,
    i = Callback kerliix_client session_id request /\
    query_params request !! "state" = Some "s" /\
    truthy (query_params request !! "error") = false.
Proof.
  intros i.
  apply (pending_removed_only_by_callback i example_world "s").
  - eexists. vm_compute. reflexivity.
  - reflexivity.
Defined.

(** X29. In a world reached from the empty stores, a cookie naming an
    existing session always gets the token from [/tokens] (the [KeyError]
    of line 226 cannot happen), and [/revoke] never answers it with the
    "No token to revoke" 400. *)
Theorem reachable_session_has_token (history : list invocation)
    (kerliix_client : KerliixOAuth) (request : Request) (session_id : string) :
  _get_session_id request = Some session_id -> session_id ≠ "" ->
  is_Some (SESSION_STORE (serve history initial_world) !! session_id) ->
  let w := serve history initial_world in
  status (tokens request w).1 = 200 /\
  status (revoke kerliix_client request w).1 ≠ 400.
Proof.
  intros Hc Hne [record Hs] w. subst w.
  assert (as_truthy (_get_session_id request) = Some session_id) as Hc'
    by (rewrite Hc; by apply as_truthy_ne).
  destruct (serve_session_shape history initial_world) with session_id record
    as [t ->]; [|done|].
  { intros sid rec Hl. cbn in Hl. by rewrite lookup_empty in Hl. }
  assert (({[ "token" := t ]} : gmap string token_obj) !! "token" = Some t) as Ht
    by apply lookup_singleton_eq.
  rewrite (tokens_found request session_id _ t _ Hc' Hs Ht).
  split; [done|].
  destruct (access_token_of t) as [at_|e] eqn:Ha.
  - by rewrite (revoke_provider_call kerliix_client request session_id _ t at_ _
                  Hc' Hs Ht Ha).
  - by rewrite (revoke_access_token_raises kerliix_client request session_id _ t e _
                  Hc' Hs Ht Ha).
Qed.

Lemma reachable_session_has_token_witness :
  let history :=
    [Login accepting_client "s1" None;
     Callback accepting_client "n1" (request_of [] [("code", "X"); ("state", "s1")])] in
  let request := request_of [("session_id", "n1")] [] in
  let w := serve history initial_world in
  status (tokens request w).1 = 200 /\
  status (revoke failing_client request w).1 ≠ 400.
Proof.
  intros history request.
  apply (reachable_session_has_token history failing_client request "n1").
  - reflexivity.
  - discriminate.
  - eexists. vm_compute. reflexivity.
Defined.

(** X30. In a world reached from the empty stores, a callback that
    presents a registered state together with a non-empty code (and no
    error) always gets as far as the provider: the exchange is called with
    the registered verifier, and the unknown-state 400 is never the
    answer. *)
Theorem reachable_registered_state_is_exchanged (history : list invocation)
    (kerliix_client : KerliixOAuth) (session_id : string) (request : Request)
    (code state code_verifier : string) :
  query_params request !! "error" = None ->
  query_params request !! "code" = Some code -> code ≠ "" ->
  query_params request !! "state" = Some state -> state ≠ "" ->
  PKCE_STORE (serve history initial_world) !! state = Some code_verifier ->
  let w := serve history initial_world in
  let run := callback kerliix_client session_id request w in
  IDP_CALLS run.2 = (IDP_CALLS w ++ [ExchangeCodeForToken code code_verifier])%list /\
  run.1 ≠ Raise (HTTPException 400
                   (JStr "Unknown or expired state (PKCE code verifier missing)")).
Proof.
  intros Herr Hcode Hcne Hstate Hsne Hcv w run. subst run w.
  pose proof (serve_verifiers_nonempty history initial_world initial_verifiers_nonempty
                state code_verifier Hcv) as Hvne.
  assert (as_truthy (query_params request !! "error") = None) as Herr'
    by (by rewrite Herr).
  assert (as_truthy (query_params request !! "code") = Some code) as Hcode'
    by (rewrite Hcode; by apply as_truthy_ne).
  assert (as_truthy (query_params request !! "state") = Some state) as Hstate'
    by (rewrite Hstate; by apply as_truthy_ne).
  assert (as_truthy (PKCE_STORE (serve history initial_world) !! state) = Some code_verifier)
    as Hcv' by (rewrite Hcv; by apply as_truthy_ne).
  destruct (exchangeCodeForToken kerliix_client code code_verifier) as [t|e] eqn:Hex.
  - by rewrite (callback_exchange_ok kerliix_client session_id request
                  code state code_verifier t _ Herr' Hcode' Hstate' Hcv' Hex).
  - rewrite (callback_exchange_failed kerliix_client session_id request
               code state code_verifier e _ Herr' Hcode' Hstate' Hcv' Hex).
    split; [done|]. by destruct e.
Qed.

Lemma reachable_registered_state_is_exchanged_witness :
  let history := [Login accepting_client "s1" (Some "openid")] in
  let request := request_of [] [("code", "X"); ("state", "s1")] in
  let w := serve history initial_world in
  let run := callback failing_client "n1" request w in
  IDP_CALLS run.2 = (IDP_CALLS w ++ [ExchangeCodeForToken "X" "new"])%list /\
  run.1 ≠ Raise (HTTPException 400
                   (JStr "Unknown or expired state (PKCE code verifier missing)")).
Proof.
  intros history request.
  apply (reachable_registered_state_is_exchanged history failing_client "n1" request
           "X" "s1" "new").
  - reflexivity.
  - reflexivity.
  - discriminate.
  - reflexivity.
  - discriminate.
  - reflexivity.
Defined.
